(** * electrum/constants.py: network profiles of the AIPG Electrum client

    A shallow embedding of [electrum/constants.py] and the properties of
    its network-parameter registry.  Python values are modelled as
    follows:
    - [int] is [Z]; a [float] literal is a binary64 [float];
    - [str] is [string], one [ascii] per character (every literal of the
      module is ASCII); [bytes] is [list byte];
    - a [dict] is the list of its items in insertion order;
    - an exception is a value of [exn], and code that may raise returns a
      [result];
    - the module namespace is a finite map from names to objects. *)

From Stdlib Require Import ZArith String Ascii List Bool Lia PrimFloat.
From Stdlib.Strings Require Byte.
From stdpp Require Import base option list gmap strings.

Local Open Scope string_scope.
Local Open Scope Z_scope.

(* A decimal float literal denotes the nearest binary64 value, as in Python. *)
Local Set Warnings "-inexact-float".

(** ** Exceptions and results *)

Inductive exn : Type :=
| NameError (name : string)
| TypeError (msg : string)
| ValueError (msg : string)
| AttributeError (name : string)
| OSError (msg : string).

Inductive result (A : Type) : Type :=
| Ok (a : A)
| Raise (e : exn).
Arguments Ok {A} a.
Arguments Raise {A} e.

#[global] Instance result_ret : MRet result := fun A a => Ok a.
#[global] Instance result_bind : MBind result := fun A B f m =>
  match m with
  | Ok a => f a
  | Raise e => Raise e
  end.
#[global] Instance result_fmap : FMap result := fun A B f m =>
  match m with
  | Ok a => Ok (f a)
  | Raise e => Raise e
  end.

Definition raises {A} (m : result A) : bool :=
  match m with
  | Ok _ => false
  | Raise _ => true
  end.

(** ** Python values used by the module *)

Inductive pynum : Type :=
| PyInt (z : Z)
| PyFloat (f : float).

Definition pynum_nonneg (n : pynum) : bool :=
  match n with
  | PyInt z => 0 <=? z
  | PyFloat f => PrimFloat.leb 0%float f
  end.

(** What [json.loads] can return. *)
#[warnings="-register-all"] Inductive json : Type :=
| JNull
| JBool (b : bool)
| JInt (z : Z)
| JFloat (f : float)
| JStr (s : string)
| JList (l : list json)
| JDict (d : list (string * json)).

(** [len(x)]: defined on [str], [list] and [dict], a [TypeError] on
    [None], [bool], [int] and [float]. *)
Definition py_len (x : json) : result Z :=
  match x with
  | JStr s => Ok (Z.of_nat (String.length s))
  | JList l => Ok (Z.of_nat (length l))
  | JDict d => Ok (Z.of_nat (length d))
  | JNull | JBool _ | JInt _ | JFloat _ => Raise (TypeError "object has no len()")
  end.

(** [max(a, b)] on [int]: the first argument is kept unless the second is
    strictly greater. *)
Definition py_max (a b : Z) : Z := if a <? b then b else a.

(** ** Dictionaries in insertion order *)

Section pydict.
Context {K V : Type} `{EqDecision K}.

Definition pydict : Type := list (K * V).

Fixpoint dict_get (d : pydict) (k : K) : option V :=
  match d with
  | [] => None
  | (k', v) :: d' => if decide (k' = k) then Some v else dict_get d' k
  end.

(** [d[k] = v]: an existing key keeps its position and takes the new
    value, a new key goes last. *)
Fixpoint dict_set (d : pydict) (k : K) (v : V) : pydict :=
  match d with
  | [] => [(k, v)]
  | (k', v') :: d' =>
      if decide (k' = k) then (k', v) :: d' else (k', v') :: dict_set d' k v
  end.

Definition dict_keys (d : pydict) : list K := map fst d.

(** A dict display [{k1: v1, ..., kn: vn}]. *)
Definition dict_literal (items : list (K * V)) : pydict :=
  fold_left (fun acc kv => dict_set acc (fst kv) (snd kv)) items [].
End pydict.
Arguments pydict : clear implicits.

(** [inv_dict(d)]: [{v: k for k, v in d.items()}]. *)
Definition inv_dict {K V} `{EqDecision V} (d : pydict K V) : pydict V K :=
  fold_left (fun acc kv => dict_set acc (snd kv) (fst kv)) d [].

(** ** The host: files and the JSON parser

    [read_json] goes through [open], [read] and [json.loads], which belong
    to the Python runtime; they are the operations of the host. *)

Class Host : Type := {
  (** [os.path.join(os.path.dirname(__file__), filename)] *)
  path_join_module_dir : string -> string;
  (** [open(path, 'r')] followed by [f.read()] *)
  read_text : string -> result string;
  (** [json.loads] *)
  json_loads : string -> result json;
}.

Section read_json.
Context `{Host}.

(** [read_json(filename, default)]: the bare [except] turns every
    exception of the [try] block into [default]. *)
Definition read_json (filename : string) (default : json) : json :=
  let path := path_join_module_dir filename in
  match (s ← read_text path; json_loads s) with
  | Ok r => r
  | Raise _ => default
  end.
End read_json.

(** ** Hexadecimal strings and [bytes] *)

Definition hex_digit_value (c : ascii) : option N :=
  let n := N_of_ascii c in
  if ((48 <=? n) && (n <=? 57))%N then Some (n - 48)%N
  else if ((97 <=? n) && (n <=? 102))%N then Some (n - 87)%N
  else if ((65 <=? n) && (n <=? 70))%N then Some (n - 55)%N
  else None.

Definition is_hex_digit (c : ascii) : bool :=
  match hex_digit_value c with
  | Some _ => true
  | None => false
  end.

(** ASCII whitespace: space, [\t], [\n], [\v], [\f], [\r]. *)
Definition is_ascii_space (c : ascii) : bool :=
  let n := N_of_ascii c in
  ((n =? 32) || ((9 <=? n) && (n <=? 13)))%N.

Definition byte_of_nibbles (hi lo : N) : option Byte.byte :=
  Byte.of_N (16 * hi + lo)%N.

Definition nibble_char (n : N) : ascii :=
  if (n <? 10)%N then ascii_of_N (48 + n) else ascii_of_N (87 + n).

(** [bytes.fromhex(s)]: two hexadecimal digits per byte, either case;
    ASCII whitespace is skipped before a byte, never inside one. *)
Fixpoint bytes_fromhex (s : string) : result (list Byte.byte) :=
  match s with
  | EmptyString => Ok []
  | String c rest =>
      if is_ascii_space c then bytes_fromhex rest
      else
        match rest with
        | EmptyString =>
            Raise (ValueError "non-hexadecimal number found in fromhex() arg")
        | String d rest' =>
            match hex_digit_value c, hex_digit_value d with
            | Some hi, Some lo =>
                match byte_of_nibbles hi lo with
                | Some b => bs ← bytes_fromhex rest'; Ok (b :: bs)
                | None =>
                    Raise (ValueError "non-hexadecimal number found in fromhex() arg")
                end
            | _, _ =>
                Raise (ValueError "non-hexadecimal number found in fromhex() arg")
            end
        end
  end.

(** [b.hex()]: two lower-case digits per byte. *)
Fixpoint bytes_hex (bs : list Byte.byte) : string :=
  match bs with
  | [] => EmptyString
  | b :: bs' =>
      let n := Byte.to_N b in
      String (nibble_char (n / 16)) (String (nibble_char (n mod 16)) (bytes_hex bs'))
  end.

(** A valid hexadecimal string of even length. *)
Fixpoint all_hex_digits (s : string) : bool :=
  match s with
  | EmptyString => true
  | String c rest => is_hex_digit c && all_hex_digits rest
  end.

Definition valid_hex (s : string) : bool :=
  all_hex_digits s && Nat.even (String.length s).

(** Modelled from the spec: the decoding step of [bitcoin.rev_hex] (see
    [rev_hex] below), which is not among the sources.  Two digits give one
    byte; the spec has it fail with a decode error on a string that "is
    not valid hex of even length". *)
Fixpoint hex_decode (s : string) : result (list Byte.byte) :=
  match s with
  | EmptyString => Ok []
  | String _ EmptyString => Raise (ValueError "odd-length hex string")
  | String c (String d rest) =>
      match hex_digit_value c, hex_digit_value d with
      | Some hi, Some lo =>
          match byte_of_nibbles hi lo with
          | Some b => bs ← hex_decode rest; Ok (b :: bs)
          | None => Raise (ValueError "not a hex digit")
          end
      | _, _ => Raise (ValueError "not a hex digit")
      end
  end.

(** Modelled from the spec: [bitcoin.rev_hex], of [electrum/bitcoin.py],
    which is not among the sources.  [rev_genesis_bytes] is to "decode the
    genesis hex string and reverse its byte order" and to fail "with a
    decode error if the genesis string is not valid hex of even length";
    the source passes the result of [rev_hex] to [bytes.fromhex], so
    [rev_hex] maps a hex string to the hex string of its bytes in reverse
    order. *)
Definition rev_hex (s : string) : result string :=
  bs ← hex_decode s; Ok (bytes_hex (rev bs)).

(** ** The named tuples *)

Record BurnAmounts : Type := {
  IssueAssetBurnAmount : pynum;
  ReissueAssetBurnAmount : pynum;
  IssueSubAssetBurnAmount : pynum;
  IssueUniqueAssetBurnAmount : pynum;
  IssueMsgChannelAssetBurnAmount : pynum;
  IssueQualifierAssetBurnAmount : pynum;
  IssueSubQualifierAssetBurnAmount : pynum;
  IssueRestrictedAssetBurnAmount : pynum;
  AddNullQualifierTagBurnAmount : pynum;
}.

Record BurnAddresses : Type := {
  IssueAssetBurnAddress : string;
  ReissueAssetBurnAddress : string;
  IssueSubAssetBurnAddress : string;
  IssueUniqueAssetBurnAddress : string;
  IssueMsgChannelAssetBurnAddress : string;
  IssueQualifierAssetBurnAddress : string;
  IssueSubQualifierAssetBurnAddress : string;
  IssueRestrictedAssetBurnAddress : string;
  AddNullQualifierTagBurnAddress : string;
  GlobalBurnAddress : string;
}.

(** [BurnAmounts._fields] and [BurnAddresses._fields]. *)
Definition BurnAmounts_fields : list string :=
  [ "IssueAssetBurnAmount"; "ReissueAssetBurnAmount"; "IssueSubAssetBurnAmount";
    "IssueUniqueAssetBurnAmount"; "IssueMsgChannelAssetBurnAmount";
    "IssueQualifierAssetBurnAmount"; "IssueSubQualifierAssetBurnAmount";
    "IssueRestrictedAssetBurnAmount"; "AddNullQualifierTagBurnAmount" ].

Definition BurnAddresses_fields : list string :=
  [ "IssueAssetBurnAddress"; "ReissueAssetBurnAddress"; "IssueSubAssetBurnAddress";
    "IssueUniqueAssetBurnAddress"; "IssueMsgChannelAssetBurnAddress";
    "IssueQualifierAssetBurnAddress"; "IssueSubQualifierAssetBurnAddress";
    "IssueRestrictedAssetBurnAddress"; "AddNullQualifierTagBurnAddress";
    "GlobalBurnAddress" ].

(** Keyword arguments of a call, in the order they are written. *)
Definition kwargs (A : Type) : Type := list (string * A).

Definition kwarg {A} (kw : kwargs A) (name : string) : result A :=
  match dict_get kw name with
  | Some v => Ok v
  | None => Raise (TypeError ("missing required argument: " ++ name))
  end.

Definition known_keywords {A} (fields : list string) (kw : kwargs A) : bool :=
  forallb (fun kv => bool_decide (fst kv ∈ fields)) kw.

(** [BurnAmounts] called with keyword arguments: no field has a default, so the constructor raises
    [TypeError] on a missing field and on an unknown keyword. *)
Definition BurnAmounts_new (kw : kwargs pynum) : result BurnAmounts :=
  if known_keywords BurnAmounts_fields kw then
    a1 ← kwarg kw "IssueAssetBurnAmount";
    a2 ← kwarg kw "ReissueAssetBurnAmount";
    a3 ← kwarg kw "IssueSubAssetBurnAmount";
    a4 ← kwarg kw "IssueUniqueAssetBurnAmount";
    a5 ← kwarg kw "IssueMsgChannelAssetBurnAmount";
    a6 ← kwarg kw "IssueQualifierAssetBurnAmount";
    a7 ← kwarg kw "IssueSubQualifierAssetBurnAmount";
    a8 ← kwarg kw "IssueRestrictedAssetBurnAmount";
    a9 ← kwarg kw "AddNullQualifierTagBurnAmount";
    Ok {| IssueAssetBurnAmount := a1; ReissueAssetBurnAmount := a2;
          IssueSubAssetBurnAmount := a3; IssueUniqueAssetBurnAmount := a4;
          IssueMsgChannelAssetBurnAmount := a5; IssueQualifierAssetBurnAmount := a6;
          IssueSubQualifierAssetBurnAmount := a7; IssueRestrictedAssetBurnAmount := a8;
          AddNullQualifierTagBurnAmount := a9 |}
  else Raise (TypeError "got an unexpected keyword argument").

Definition BurnAddresses_new (kw : kwargs string) : result BurnAddresses :=
  if known_keywords BurnAddresses_fields kw then
    a1 ← kwarg kw "IssueAssetBurnAddress";
    a2 ← kwarg kw "ReissueAssetBurnAddress";
    a3 ← kwarg kw "IssueSubAssetBurnAddress";
    a4 ← kwarg kw "IssueUniqueAssetBurnAddress";
    a5 ← kwarg kw "IssueMsgChannelAssetBurnAddress";
    a6 ← kwarg kw "IssueQualifierAssetBurnAddress";
    a7 ← kwarg kw "IssueSubQualifierAssetBurnAddress";
    a8 ← kwarg kw "IssueRestrictedAssetBurnAddress";
    a9 ← kwarg kw "AddNullQualifierTagBurnAddress";
    a10 ← kwarg kw "GlobalBurnAddress";
    Ok {| IssueAssetBurnAddress := a1; ReissueAssetBurnAddress := a2;
          IssueSubAssetBurnAddress := a3; IssueUniqueAssetBurnAddress := a4;
          IssueMsgChannelAssetBurnAddress := a5; IssueQualifierAssetBurnAddress := a6;
          IssueSubQualifierAssetBurnAddress := a7; IssueRestrictedAssetBurnAddress := a8;
          AddNullQualifierTagBurnAddress := a9; GlobalBurnAddress := a10 |}
  else Raise (TypeError "got an unexpected keyword argument").

(** [getattr(t, name)] on the two tuples, for the name of a field.  The
    attributes that a named tuple has besides its fields ([count],
    [index], [_fields], [_asdict], [_replace], the special methods) are
    not modelled: the functions are read at field names only, and what
    they answer for another name says nothing about the program. *)
Definition BurnAmounts_getattr (t : BurnAmounts) (name : string) : result pynum :=
  if decide (name = "IssueAssetBurnAmount") then Ok (IssueAssetBurnAmount t)
  else if decide (name = "ReissueAssetBurnAmount") then Ok (ReissueAssetBurnAmount t)
  else if decide (name = "IssueSubAssetBurnAmount") then Ok (IssueSubAssetBurnAmount t)
  else if decide (name = "IssueUniqueAssetBurnAmount") then Ok (IssueUniqueAssetBurnAmount t)
  else if decide (name = "IssueMsgChannelAssetBurnAmount") then Ok (IssueMsgChannelAssetBurnAmount t)
  else if decide (name = "IssueQualifierAssetBurnAmount") then Ok (IssueQualifierAssetBurnAmount t)
  else if decide (name = "IssueSubQualifierAssetBurnAmount") then Ok (IssueSubQualifierAssetBurnAmount t)
  else if decide (name = "IssueRestrictedAssetBurnAmount") then Ok (IssueRestrictedAssetBurnAmount t)
  else if decide (name = "AddNullQualifierTagBurnAmount") then Ok (AddNullQualifierTagBurnAmount t)
  else Raise (AttributeError name).

Definition BurnAddresses_getattr (t : BurnAddresses) (name : string) : result string :=
  if decide (name = "IssueAssetBurnAddress") then Ok (IssueAssetBurnAddress t)
  else if decide (name = "ReissueAssetBurnAddress") then Ok (ReissueAssetBurnAddress t)
  else if decide (name = "IssueSubAssetBurnAddress") then Ok (IssueSubAssetBurnAddress t)
  else if decide (name = "IssueUniqueAssetBurnAddress") then Ok (IssueUniqueAssetBurnAddress t)
  else if decide (name = "IssueMsgChannelAssetBurnAddress") then Ok (IssueMsgChannelAssetBurnAddress t)
  else if decide (name = "IssueQualifierAssetBurnAddress") then Ok (IssueQualifierAssetBurnAddress t)
  else if decide (name = "IssueSubQualifierAssetBurnAddress") then Ok (IssueSubQualifierAssetBurnAddress t)
  else if decide (name = "IssueRestrictedAssetBurnAddress") then Ok (IssueRestrictedAssetBurnAddress t)
  else if decide (name = "AddNullQualifierTagBurnAddress") then Ok (AddNullQualifierTagBurnAddress t)
  else if decide (name = "GlobalBurnAddress") then Ok (GlobalBurnAddress t)
  else Raise (AttributeError name).

(** ** Network classes

    The attributes of a network class, as [cls.NAME] resolves them through
    the class and its base [AbstractNet].  [GENESIS], [CHECKPOINTS] and
    [DGW_CHECKPOINTS] are [None] in [AbstractNet] ([None] and [JNull]
    here); [LN_REALM_BYTE] and [LN_DNS_SEEDS] are assigned by the testnet
    class only. *)

Record Net : Type := {
  NET_NAME : string;
  TESTNET : bool;
  WIF_PREFIX : Z;
  ADDRTYPE_P2PKH : Z;
  ADDRTYPE_P2SH : Z;
  ADDRTYPE_P2SH_ALT : Z;
  MATURE : Z;
  SEGWIT_HRP : string;
  BOLT11_HRP : string;
  GENESIS : option string;
  DEFAULT_PORTS : pydict string string;
  DEFAULT_SERVERS : json;
  CHECKPOINTS : json;
  DGW_CHECKPOINTS : json;
  DGW_CHECKPOINTS_SPACING : Z;
  DGW_CHECKPOINTS_START : Z;
  X16Rv2ActivationTS : Z;
  KawpowActivationTS : Z;
  KawpowActivationHeight : Z;
  nDGWActivationBlock : Z;
  DEFAULT_MESSAGE_CHANNELS : list string;
  ASSET_PREFIX : list Byte.byte;
  SHORT_NAME : string;
  LONG_NAME : string;
  MULTISIG_ASSETS : bool;
  XPRV_HEADERS : pydict string Z;
  XPRV_HEADERS_INV : pydict Z string;
  XPUB_HEADERS : pydict string Z;
  XPUB_HEADERS_INV : pydict Z string;
  BIP44_COIN_TYPE : Z;
  BURN_AMOUNTS : BurnAmounts;
  BURN_ADDRESSES : BurnAddresses;
  BLOCK_HEIGHT_FIRST_LIGHTNING_CHANNELS : Z;
  LN_REALM_BYTE : option Z;
  LN_DNS_SEEDS : option (list string);
}.

(** [AbstractNet.max_legacy_checkpoint] *)
Definition max_legacy_checkpoint (cls : Net) : result Z :=
  n ← py_len (CHECKPOINTS cls);
  Ok (py_max 0 (n * 2016 - 1)).

(** [AbstractNet.max_checkpoint] *)
Definition max_checkpoint (cls : Net) : result Z :=
  n ← py_len (DGW_CHECKPOINTS cls);
  Ok (py_max 0 (DGW_CHECKPOINTS_START cls + (n * DGW_CHECKPOINTS_SPACING cls) - 1)).

(** [AbstractNet.rev_genesis_bytes] *)
Definition rev_genesis_bytes (cls : Net) : result (list Byte.byte) :=
  match GENESIS cls with
  | None => Raise (TypeError "fromhex() argument must be str, not None")
  | Some g => h ← rev_hex g; bytes_fromhex h
  end.

(** ** The module namespace *)

Inductive func : Type :=
| F_inv_dict
| F_read_json
| F_all_subclasses
| F_set_mainnet
| F_set_testnet.

#[warnings="-register-all"] Inductive pyobj : Type :=
| ObjModule (name : string)
| ObjTyping (name : string)
| ObjBuiltin (name : string)
| ObjFunc (f : func)
| ObjStr (s : string)
| ObjJson (j : json)
| ObjNamedTuple (name : string) (fields : list string)
| ObjAbstractNet
| ObjNet (cls : Net)
| ObjTuple (items : list pyobj).

Abbreviation globals := (gmap string pyobj).

(** The names of the [builtins] namespace that the module refers to.  No
    builtin has a name that starts with [Ravencoin]. *)
Definition builtins : list string :=
  [ "open"; "max"; "len"; "bytes"; "set"; "tuple"; "int"; "float"; "str"; "bool" ].

(** Reading a global name: the module namespace, then the builtins, then
    [NameError]. *)
Definition load_name (g : globals) (name : string) : result pyobj :=
  match g !! name with
  | Some v => Ok v
  | None =>
      if bool_decide (name ∈ builtins) then Ok (ObjBuiltin name)
      else Raise (NameError name)
  end.

(** [all_subclasses(cls)]: every class that derives from [AbstractNet] is
    bound to a name of the module, so the subclasses of [AbstractNet] are
    the network classes of the namespace.  The result is a Python [set];
    the order of its elements is not fixed by the source. *)
Definition all_subclasses (g : globals) (cls : pyobj) : result (list pyobj) :=
  match cls with
  | ObjAbstractNet =>
      Ok (omap (fun kv => match snd kv with
                          | ObjNet n => Some (ObjNet n)
                          | _ => None
                          end) (map_to_list g))
  | ObjNet _ | ObjNamedTuple _ _ => Ok []
  | _ => Raise (AttributeError "__subclasses__")
  end.

(** [set_mainnet()] and [set_testnet()]: [global net], then one assignment
    whose right-hand side is a global name. *)
Definition set_mainnet (g : globals) : result globals :=
  v ← load_name g "RavencoinMainnet";
  Ok (<["net" := v]> g).

Definition set_testnet (g : globals) : result globals :=
  v ← load_name g "RavencoinTestnet";
  Ok (<["net" := v]> g).

(** [constants.net.NAME], read by a client of the module. *)
Definition net_attr {A} (g : globals) (attr : Net -> A) (name : string) : result A :=
  v ← load_name g "net";
  match v with
  | ObjNet cls => Ok (attr cls)
  | _ => Raise (AttributeError name)
  end.

(** ** The top level of the module *)

Section module.
Context `{Host}.

(** Calls of the module's own functions and classes from a class body.
    The callee is a global name; in the module's namespace it is bound to
    the definition above, and a call of any other object is reported as a
    [TypeError]. *)
Definition call_read_json (g : globals) (filename : string) (default : json)
  : result json :=
  f ← load_name g "read_json";
  match f with
  | ObjFunc F_read_json => Ok (read_json filename default)
  | _ => Raise (TypeError "read_json")
  end.

Definition call_inv_dict {K V} `{EqDecision V} (g : globals) (d : pydict K V)
  : result (pydict V K) :=
  f ← load_name g "inv_dict";
  match f with
  | ObjFunc F_inv_dict => Ok (inv_dict d)
  | _ => Raise (TypeError "inv_dict")
  end.

Definition call_BurnAmounts (g : globals) (kw : kwargs pynum) : result BurnAmounts :=
  c ← load_name g "BurnAmounts";
  match c with
  | ObjNamedTuple "BurnAmounts" _ => BurnAmounts_new kw
  | _ => Raise (TypeError "BurnAmounts")
  end.

Definition call_BurnAddresses (g : globals) (kw : kwargs string)
  : result BurnAddresses :=
  c ← load_name g "BurnAddresses";
  match c with
  | ObjNamedTuple "BurnAddresses" _ => BurnAddresses_new kw
  | _ => Raise (TypeError "BurnAddresses")
  end.

Definition base_AbstractNet (g : globals) : result unit :=
  b ← load_name g "AbstractNet";
  match b with
  | ObjAbstractNet => Ok tt
  | _ => Raise (TypeError "AbstractNet")
  end.

(** [class AIPGMainnet(AbstractNet)] *)
Definition class_AIPGMainnet (g : globals) : result pyobj :=
  _ ← base_AbstractNet g;
  let SEGWIT_HRP_ := "rc" in
  DEFAULT_SERVERS_ ← call_read_json g "servers.json" (JDict []);
  CHECKPOINTS_ ← call_read_json g "checkpoints.json" (JList []);
  DGW_CHECKPOINTS_ ← call_read_json g "checkpoints_dgw.json" (JList []);
  let DGW_CHECKPOINTS_SPACING_ := 2016 in
  let XPRV_HEADERS_ := dict_literal
    [ ("standard", 0x0488ade4); ("p2wpkh-p2sh", 0x049d7878);
      ("p2wsh-p2sh", 0x0295b005); ("p2wpkh", 0x04b2430c);
      ("p2wsh", 0x02aa7a99) ] in
  XPRV_HEADERS_INV_ ← call_inv_dict g XPRV_HEADERS_;
  let XPUB_HEADERS_ := dict_literal
    [ ("standard", 0x0488b21e); ("p2wpkh-p2sh", 0x049d7cb2);
      ("p2wsh-p2sh", 0x0295b43f); ("p2wpkh", 0x04b24746);
      ("p2wsh", 0x02aa7ed3) ] in
  XPUB_HEADERS_INV_ ← call_inv_dict g XPUB_HEADERS_;
  BURN_AMOUNTS_ ← call_BurnAmounts g
    [ ("IssueAssetBurnAmount", PyInt 50);
      ("ReissueAssetBurnAmount", PyInt 10);
      ("IssueSubAssetBurnAmount", PyInt 10);
      ("IssueUniqueAssetBurnAmount", PyFloat 0.5%float);
      ("IssueMsgChannelAssetBurnAmount", PyInt 10);
      ("IssueQualifierAssetBurnAmount", PyInt 100);
      ("IssueSubQualifierAssetBurnAmount", PyInt 10);
      ("IssueRestrictedAssetBurnAmount", PyInt 150);
      ("AddNullQualifierTagBurnAmount", PyFloat 0.01%float) ];
  BURN_ADDRESSES_ ← call_BurnAddresses g
    [ ("IssueAssetBurnAddress", "AIissueAssetXXXXXXXXXXXXXXXXXhhZGt");
      ("ReissueAssetBurnAddress", "AIReissueAssetXXXXXXXXXXXXXXVEFAWu");
      ("IssueSubAssetBurnAddress", "AIissueSubAssetXXXXXXXXXXXXXWcwhwL");
      ("IssueUniqueAssetBurnAddress", "AIissueUniqueAssetXXXXXXXXXXWEAe58");
      ("IssueMsgChannelAssetBurnAddress", "AIissueMsgChanneLAssetXXXXXXSjHvAY");
      ("IssueQualifierAssetBurnAddress", "AIissueQuaLifierXXXXXXXXXXXXUgEDbC");
      ("IssueSubQualifierAssetBurnAddress", "AIissueSubQuaLifierXXXXXXXXXVTzvv5");
      ("IssueRestrictedAssetBurnAddress", "AIissueRestrictedXXXXXXXXXXXXzJZ1q");
      ("AddNullQualifierTagBurnAddress", "AIaddTagBurnXXXXXXXXXXXXXXXXZQm5ya");
      ("GlobalBurnAddress", "AIBurnXXXXXXXXXXXXXXXXXXXXXXWUo9FV") ];
  Ok (ObjNet {|
    NET_NAME := "mainnet";
    TESTNET := false;
    WIF_PREFIX := 128;
    ADDRTYPE_P2PKH := 23;
    ADDRTYPE_P2SH := 23;
    ADDRTYPE_P2SH_ALT := 23;
    MATURE := 60;
    SEGWIT_HRP := SEGWIT_HRP_;
    BOLT11_HRP := SEGWIT_HRP_;
    GENESIS :=
      Some "000000fe8c99a7aacc5aff074278a8378e625c0d02e4894db8f09bab185f4eb6";
    DEFAULT_PORTS := dict_literal [ ("t", "50001"); ("s", "50002") ];
    DEFAULT_SERVERS := DEFAULT_SERVERS_;
    CHECKPOINTS := CHECKPOINTS_;
    DGW_CHECKPOINTS := DGW_CHECKPOINTS_;
    DGW_CHECKPOINTS_SPACING := DGW_CHECKPOINTS_SPACING_;
    DGW_CHECKPOINTS_START := 168 * DGW_CHECKPOINTS_SPACING_;
    X16Rv2ActivationTS := 1688764800;
    KawpowActivationTS := 1688764800;
    KawpowActivationHeight := 1;
    nDGWActivationBlock := 1;
    DEFAULT_MESSAGE_CHANNELS := [ "ELECTRUM_AIPG~notification" ];
    ASSET_PREFIX := [ Byte.x61; Byte.x69; Byte.x70; Byte.x67 ];
    SHORT_NAME := "AIPG";
    LONG_NAME := "AIPG";
    MULTISIG_ASSETS := false;
    XPRV_HEADERS := XPRV_HEADERS_;
    XPRV_HEADERS_INV := XPRV_HEADERS_INV_;
    XPUB_HEADERS := XPUB_HEADERS_;
    XPUB_HEADERS_INV := XPUB_HEADERS_INV_;
    BIP44_COIN_TYPE := 2686;
    BURN_AMOUNTS := BURN_AMOUNTS_;
    BURN_ADDRESSES := BURN_ADDRESSES_;
    BLOCK_HEIGHT_FIRST_LIGHTNING_CHANNELS := 0;
    LN_REALM_BYTE := None;
    LN_DNS_SEEDS := None;
  |}).

(** [class AIPGTestnet(AbstractNet)] *)
Definition class_AIPGTestnet (g : globals) : result pyobj :=
  _ ← base_AbstractNet g;
  let SEGWIT_HRP_ := "tc" in
  DEFAULT_SERVERS_ ← call_read_json g "servers_testnet.json" (JDict []);
  DGW_CHECKPOINTS_ ← call_read_json g "checkpoints_dgw_testnet.json" (JList []);
  let XPRV_HEADERS_ := dict_literal
    [ ("standard", 0x04358394); ("p2wpkh-p2sh", 0x044a4e28);
      ("p2wsh-p2sh", 0x024285b5); ("p2wpkh", 0x045f18bc);
      ("p2wsh", 0x02575048) ] in
  XPRV_HEADERS_INV_ ← call_inv_dict g XPRV_HEADERS_;
  let XPUB_HEADERS_ := dict_literal
    [ ("standard", 0x043587cf); ("p2wpkh-p2sh", 0x044a5262);
      ("p2wsh-p2sh", 0x024289ef); ("p2wpkh", 0x045f1cf6);
      ("p2wsh", 0x02575483) ] in
  XPUB_HEADERS_INV_ ← call_inv_dict g XPUB_HEADERS_;
  BURN_AMOUNTS_ ← call_BurnAmounts g
    [ ("IssueAssetBurnAmount", PyInt 50);
      ("ReissueAssetBurnAmount", PyInt 10);
      ("IssueSubAssetBurnAmount", PyInt 10);
      ("IssueUniqueAssetBurnAmount", PyFloat 0.5%float);
      ("IssueMsgChannelAssetBurnAmount", PyInt 10);
      ("IssueQualifierAssetBurnAmount", PyInt 100);
      ("IssueSubQualifierAssetBurnAmount", PyInt 10);
      ("IssueRestrictedAssetBurnAmount", PyInt 150);
      ("AddNullQualifierTagBurnAmount", PyFloat 0.01%float) ];
  BURN_ADDRESSES_ ← call_BurnAddresses g
    [ ("IssueAssetBurnAddress", "n1issueAssetXXXXXXXXXXXXXXXXWdnemQ");
      ("ReissueAssetBurnAddress", "n1ReissueAssetXXXXXXXXXXXXXXWG9NLd");
      ("IssueSubAssetBurnAddress", "n1issueSubAssetXXXXXXXXXXXXXbNiH6v");
      ("IssueUniqueAssetBurnAddress", "n1issueUniqueAssetXXXXXXXXXXS4695i");
      ("IssueMsgChannelAssetBurnAddress", "n1issueMsgChanneLAssetXXXXXXT2PBdD");
      ("IssueQualifierAssetBurnAddress", "n1issueQuaLifierXXXXXXXXXXXXUysLTj");
      ("IssueSubQualifierAssetBurnAddress", "n1issueSubQuaLifierXXXXXXXXXYffPLh");
      ("IssueRestrictedAssetBurnAddress", "n1issueRestrictedXXXXXXXXXXXXZVT9V");
      ("AddNullQualifierTagBurnAddress", "n1addTagBurnXXXXXXXXXXXXXXXXX5oLMH");
      ("GlobalBurnAddress", "AcYHNBj8C6nCFSpu1ANsJxturWp31W32cd") ];
  Ok (ObjNet {|
    NET_NAME := "testnet";
    BIP44_COIN_TYPE := 1;
    LN_REALM_BYTE := Some 0;
    LN_DNS_SEEDS := Some [];
    TESTNET := true;
    WIF_PREFIX := 239;
    ADDRTYPE_P2PKH := 23;
    ADDRTYPE_P2SH := 23;
    ADDRTYPE_P2SH_ALT := 23;
    MATURE := 60;
    SEGWIT_HRP := SEGWIT_HRP_;
    BOLT11_HRP := SEGWIT_HRP_;
    GENESIS :=
      Some "000000f798386703ae778eeaf8a2f426dc2715eb8989b4226cddc1681b567760";
    DEFAULT_PORTS := dict_literal [ ("t", "51001"); ("s", "51002") ];
    DEFAULT_SERVERS := DEFAULT_SERVERS_;
    CHECKPOINTS := JList [];
    DGW_CHECKPOINTS := DGW_CHECKPOINTS_;
    DGW_CHECKPOINTS_SPACING := 2016;
    DGW_CHECKPOINTS_START := 0;
    X16Rv2ActivationTS := 1688764800;
    KawpowActivationTS := 1688764800;
    KawpowActivationHeight := 1;
    nDGWActivationBlock := 1;
    DEFAULT_MESSAGE_CHANNELS := [];
    ASSET_PREFIX := [ Byte.x61; Byte.x69; Byte.x70; Byte.x67 ];
    SHORT_NAME := "tAIPG";
    LONG_NAME := "AIPG";
    MULTISIG_ASSETS := false;
    XPRV_HEADERS := XPRV_HEADERS_;
    XPRV_HEADERS_INV := XPRV_HEADERS_INV_;
    XPUB_HEADERS := XPUB_HEADERS_;
    XPUB_HEADERS_INV := XPUB_HEADERS_INV_;
    BURN_AMOUNTS := BURN_AMOUNTS_;
    BURN_ADDRESSES := BURN_ADDRESSES_;
    BLOCK_HEIGHT_FIRST_LIGHTNING_CHANNELS := 0;
  |}).

(** A statement of the module's top level: each binds names of the
    module namespace to the value of its right-hand side.  A [def] binds
    a function object without running its body; a [class] statement runs
    its body. *)
Inductive stmt : Type :=
| Import (bindings : list (string * pyobj))
| Def (name : string) (f : func)
| Class (name : string) (body : globals -> result pyobj)
| Assign (name : string) (rhs : globals -> result pyobj).

Definition bound_names (s : stmt) : list string :=
  match s with
  | Import bindings => map fst bindings
  | Def name _ | Class name _ | Assign name _ => [name]
  end.

Definition exec_stmt (g : globals) (s : stmt) : result globals :=
  match s with
  | Import bindings =>
      Ok (fold_left (fun acc kv => <[fst kv := snd kv]> acc) bindings g)
  | Def name f => Ok (<[name := ObjFunc f]> g)
  | Class name body => v ← body g; Ok (<[name := v]> g)
  | Assign name rhs => v ← rhs g; Ok (<[name := v]> g)
  end.

(** Statements run in order; the first exception ends the execution and
    leaves the namespace as it was before the failing statement. *)
Fixpoint exec (body : list stmt) (g : globals) : globals * option exn :=
  match body with
  | [] => (g, None)
  | s :: rest =>
      match exec_stmt g s with
      | Ok g' => exec rest g'
      | Raise e => (g, Some e)
      end
  end.

(** [electrum/constants.py], statement by statement. *)
Definition module_body : list stmt :=
  [ Import [ ("os", ObjModule "os") ];
    Import [ ("json", ObjModule "json") ];
    Import [ ("NamedTuple", ObjTyping "NamedTuple"); ("Union", ObjTyping "Union") ];
    Def "inv_dict" F_inv_dict;
    Def "read_json" F_read_json;
    Assign "GIT_REPO_URL"
      (fun _ => Ok (ObjStr "https://github.com/AIPowerGrid/electrum-aipg"));
    Assign "GIT_REPO_ISSUES_URL"
      (fun _ => Ok (ObjStr "https://github.com/AIPowerGrid/electrum-aipg/issues"));
    Assign "BIP39_WALLET_FORMATS"
      (fun g => ObjJson <$> call_read_json g "bip39_wallet_formats.json" (JList []));
    Class "BurnAmounts"
      (fun g => _ ← load_name g "NamedTuple";
                Ok (ObjNamedTuple "BurnAmounts" BurnAmounts_fields));
    Class "BurnAddresses"
      (fun g => _ ← load_name g "NamedTuple";
                Ok (ObjNamedTuple "BurnAddresses" BurnAddresses_fields));
    Class "AbstractNet" (fun _ => Ok ObjAbstractNet);
    Class "AIPGMainnet" class_AIPGMainnet;
    Class "AIPGTestnet" class_AIPGTestnet;
    Def "all_subclasses" F_all_subclasses;
    Assign "NETS_LIST"
      (fun g => c ← load_name g "AbstractNet";
                ObjTuple <$> all_subclasses g c);
    Assign "net" (fun g => load_name g "RavencoinMainnet");
    Def "set_mainnet" F_set_mainnet;
    Def "set_testnet" F_set_testnet ].

(** Importing the module: its body runs in an empty namespace. *)
Definition import_module : globals * option exn := exec module_body ∅.
End module.

(** ** Clients of the module *)

(** [constants.NAME] for a network class [NAME] of the namespace. *)
Definition the_class (g : globals) (name : string) : result Net :=
  v ← load_name g name;
  match v with
  | ObjNet cls => Ok cls
  | _ => Raise (TypeError name)
  end.

(** A bundled resource that [read_json] cannot load: the file cannot be
    read, or its text is rejected by the parser. *)
Definition unreadable `{Host} (filename : string) : Prop :=
  match read_text (path_join_module_dir filename) with
  | Raise _ => True
  | Ok s =>
      match json_loads s with
      | Raise _ => True
      | Ok _ => False
      end
  end.

(** The five derivation schemes of the extended-key headers. *)
Definition schemes : list string :=
  [ "standard"; "p2wpkh-p2sh"; "p2wsh-p2sh"; "p2wpkh"; "p2wsh" ].

(** A version map is injective when no two keys carry the same value. *)
Definition injective_dict {K V} `{EqDecision K} (d : pydict K V) : Prop :=
  ∀ k1 k2 v, dict_get d k1 = Some v → dict_get d k2 = Some v → k1 = k2.

(** The items of [d] whose value is [v], in the order of [d]. *)
Definition items_with_value {K V} `{EqDecision V} (d : list (K * V)) (v : V)
  : list (K * V) :=
  filter (fun kv => snd kv = v) d.

(** ** Hosts given by tables

    A host whose files and whose parser are finite tables: the files map a
    path to a text, the parser maps a text to the value it denotes and
    rejects every other text.  They serve to run the module on concrete
    resources. *)

Definition table_host (files : pydict string string) (documents : pydict string json)
  : Host := {|
  path_join_module_dir filename := "electrum/" ++ filename;
  read_text path :=
    match dict_get files path with
    | Some s => Ok s
    | None => Raise (OSError "No such file or directory")
    end;
  json_loads s :=
    match dict_get documents s with
    | Some j => Ok j
    | None => Raise (ValueError "JSONDecodeError")
    end;
|}.

(** No resource is present. *)
Definition bare_host : Host := table_host [] [].

(** 168 legacy checkpoints and 5000 DGW checkpoints on mainnet. *)
Definition stocked_host : Host :=
  table_host
    [ ("electrum/checkpoints.json", "legacy");
      ("electrum/checkpoints_dgw.json", "dgw") ]
    [ ("legacy", JList (repeat (JList [JStr "00"; JInt 0]) 168));
      ("dgw", JList (repeat (JList [JStr "00"; JInt 0]) 5000)) ].

(** The legacy checkpoint file of mainnet is present but is not JSON. *)
Definition corrupt_host : Host :=
  table_host
    [ ("electrum/checkpoints.json", "{[");
      ("electrum/checkpoints_dgw.json", "dgw") ]
    [ ("dgw", JList (repeat (JList [JStr "00"; JInt 0]) 5000)) ].

(** The value of a computation that does not raise. *)
Definition value_of {A} (r : result A) : raises r = false → A :=
  match r with
  | Ok a => fun _ => a
  | Raise _ => fun H => False_rect A (Bool.diff_true_false H)
  end.

Definition stocked_mainnet : Net :=
  Eval vm_compute in
    value_of (the_class (fst (@import_module stocked_host)) "AIPGMainnet") eq_refl.

Definition bare_testnet : Net :=
  Eval vm_compute in
    value_of (the_class (fst (@import_module bare_host)) "AIPGTestnet") eq_refl.

(** A subclass of [P] whose body is the single assignment [GENESIS = g]. *)
Definition with_GENESIS (P : Net) (g : option string) : Net := {|
  NET_NAME := NET_NAME P;
  TESTNET := TESTNET P;
  WIF_PREFIX := WIF_PREFIX P;
  ADDRTYPE_P2PKH := ADDRTYPE_P2PKH P;
  ADDRTYPE_P2SH := ADDRTYPE_P2SH P;
  ADDRTYPE_P2SH_ALT := ADDRTYPE_P2SH_ALT P;
  MATURE := MATURE P;
  SEGWIT_HRP := SEGWIT_HRP P;
  BOLT11_HRP := BOLT11_HRP P;
  GENESIS := g;
  DEFAULT_PORTS := DEFAULT_PORTS P;
  DEFAULT_SERVERS := DEFAULT_SERVERS P;
  CHECKPOINTS := CHECKPOINTS P;
  DGW_CHECKPOINTS := DGW_CHECKPOINTS P;
  DGW_CHECKPOINTS_SPACING := DGW_CHECKPOINTS_SPACING P;
  DGW_CHECKPOINTS_START := DGW_CHECKPOINTS_START P;
  X16Rv2ActivationTS := X16Rv2ActivationTS P;
  KawpowActivationTS := KawpowActivationTS P;
  KawpowActivationHeight := KawpowActivationHeight P;
  nDGWActivationBlock := nDGWActivationBlock P;
  DEFAULT_MESSAGE_CHANNELS := DEFAULT_MESSAGE_CHANNELS P;
  ASSET_PREFIX := ASSET_PREFIX P;
  SHORT_NAME := SHORT_NAME P;
  LONG_NAME := LONG_NAME P;
  MULTISIG_ASSETS := MULTISIG_ASSETS P;
  XPRV_HEADERS := XPRV_HEADERS P;
  XPRV_HEADERS_INV := XPRV_HEADERS_INV P;
  XPUB_HEADERS := XPUB_HEADERS P;
  XPUB_HEADERS_INV := XPUB_HEADERS_INV P;
  BIP44_COIN_TYPE := BIP44_COIN_TYPE P;
  BURN_AMOUNTS := BURN_AMOUNTS P;
  BURN_ADDRESSES := BURN_ADDRESSES P;
  BLOCK_HEIGHT_FIRST_LIGHTNING_CHANNELS := BLOCK_HEIGHT_FIRST_LIGHTNING_CHANNELS P;
  LN_REALM_BYTE := LN_REALM_BYTE P;
  LN_DNS_SEEDS := LN_DNS_SEEDS P;
|}.

(** Whether the keyword arguments of a call supply [name]. *)
Definition has_keyword {A} (kw : kwargs A) (name : string) : bool :=
  match dict_get kw name with
  | Some _ => true
  | None => false
  end.

(** [hex_decode] succeeds exactly on the valid hexadecimal strings of even
    length, and its only exception is [ValueError]. *)
Definition hex_decode_outcome (s : string) : Prop :=
  match hex_decode s with
  | Ok _ => valid_hex s = true
  | Raise e => valid_hex s = false ∧ ∃ msg, e = ValueError msg
  end.

(** ** The class hierarchy

    [all_subclasses(cls)] starts from the set of [cls.__subclasses__()],
    the direct subclasses of [cls], and adds [all_subclasses(sub)] for
    every [sub] of a copy of that set.  Classes are identified by a
    countable type; [depth] bounds the depth of the recursion, and the
    result is [None] when the bound is reached. *)

Section hierarchy.
Context {C : Type} `{Countable C}.
Context (direct : C → list C).

Fixpoint all_subclasses_in (depth : nat) (cls : C) : option (gset C) :=
  match depth with
  | O => None
  | S depth' =>
      let res : gset C := list_to_set (direct cls) in
      fold_left (fun acc sub =>
                   r ← acc; s ← all_subclasses_in depth' sub; Some (r ∪ s))
                (elements res) (Some res)
  end.

(** [x] derives from [cls] in one or more steps. *)
Inductive descends : C → C → Prop :=
| descends_direct (cls sub : C) : sub ∈ direct cls → descends cls sub
| descends_step (cls sub x : C) : sub ∈ direct cls → descends sub x → descends cls x.
End hierarchy.

(** The [class] statements of the module: [AIPGMainnet] and [AIPGTestnet]
    name [AbstractNet] as their base, in this order; no class derives
    from them. *)
Definition module_direct_subclasses (cls : string) : list string :=
  if decide (cls = "AbstractNet") then [ "AIPGMainnet"; "AIPGTestnet" ] else [].

(** The legacy checkpoint file of mainnet holds the JSON text [null]. *)
Definition null_host : Host :=
  table_host [ ("electrum/checkpoints.json", "null") ] [ ("null", JNull) ].

Definition bare_mainnet : Net :=
  Eval vm_compute in
    value_of (the_class (fst (@import_module bare_host)) "AIPGMainnet") eq_refl.

(** A subclass of [P] whose body assigns the three attributes that the
    module loads from bundled files. *)
Definition with_tables (P : Net) (servers legacy dgw : json) : Net := {|
  NET_NAME := NET_NAME P;
  TESTNET := TESTNET P;
  WIF_PREFIX := WIF_PREFIX P;
  ADDRTYPE_P2PKH := ADDRTYPE_P2PKH P;
  ADDRTYPE_P2SH := ADDRTYPE_P2SH P;
  ADDRTYPE_P2SH_ALT := ADDRTYPE_P2SH_ALT P;
  MATURE := MATURE P;
  SEGWIT_HRP := SEGWIT_HRP P;
  BOLT11_HRP := BOLT11_HRP P;
  GENESIS := GENESIS P;
  DEFAULT_PORTS := DEFAULT_PORTS P;
  DEFAULT_SERVERS := servers;
  CHECKPOINTS := legacy;
  DGW_CHECKPOINTS := dgw;
  DGW_CHECKPOINTS_SPACING := DGW_CHECKPOINTS_SPACING P;
  DGW_CHECKPOINTS_START := DGW_CHECKPOINTS_START P;
  X16Rv2ActivationTS := X16Rv2ActivationTS P;
  KawpowActivationTS := KawpowActivationTS P;
  KawpowActivationHeight := KawpowActivationHeight P;
  nDGWActivationBlock := nDGWActivationBlock P;
  DEFAULT_MESSAGE_CHANNELS := DEFAULT_MESSAGE_CHANNELS P;
  ASSET_PREFIX := ASSET_PREFIX P;
  SHORT_NAME := SHORT_NAME P;
  LONG_NAME := LONG_NAME P;
  MULTISIG_ASSETS := MULTISIG_ASSETS P;
  XPRV_HEADERS := XPRV_HEADERS P;
  XPRV_HEADERS_INV := XPRV_HEADERS_INV P;
  XPUB_HEADERS := XPUB_HEADERS P;
  XPUB_HEADERS_INV := XPUB_HEADERS_INV P;
  BIP44_COIN_TYPE := BIP44_COIN_TYPE P;
  BURN_AMOUNTS := BURN_AMOUNTS P;
  BURN_ADDRESSES := BURN_ADDRESSES P;
  BLOCK_HEIGHT_FIRST_LIGHTNING_CHANNELS := BLOCK_HEIGHT_FIRST_LIGHTNING_CHANNELS P;
  LN_REALM_BYTE := LN_REALM_BYTE P;
  LN_DNS_SEEDS := LN_DNS_SEEDS P;
|}.

(** Whether [len] is defined on a value. *)
Definition has_len (x : json) : bool :=
  match x with
  | JStr _ | JList _ | JDict _ => true
  | JNull | JBool _ | JInt _ | JFloat _ => false
  end.

(** The version integers of the four header maps of two classes. *)
Definition version_integers (M T : Net) : list Z :=
  map snd (XPRV_HEADERS M) ++ map snd (XPUB_HEADERS M)
  ++ map snd (XPRV_HEADERS T) ++ map snd (XPUB_HEADERS T).

(** The fields of a [BurnAddresses] tuple, in order. *)
Definition burn_address_list (t : BurnAddresses) : list string :=
  [ IssueAssetBurnAddress t; ReissueAssetBurnAddress t; IssueSubAssetBurnAddress t;
    IssueUniqueAssetBurnAddress t; IssueMsgChannelAssetBurnAddress t;
    IssueQualifierAssetBurnAddress t; IssueSubQualifierAssetBurnAddress t;
    IssueRestrictedAssetBurnAddress t; AddNullQualifierTagBurnAddress t;
    GlobalBurnAddress t ].

(** * Properties *)

(** Membership of a literal name in a literal list of names. *)
Ltac name_not_listed :=
  rewrite list_elem_of_In; let Hin := fresh "Hin" in
  intros Hin; vm_compute in Hin; intuition discriminate.

(** ** Arithmetic of the checkpoint bounds *)

Lemma py_max_Zmax (a b : Z) : py_max a b = Z.max a b.
Proof.
  unfold py_max. destruct (Z.ltb_spec a b); lia.
Qed.

(** C3. For every network class whose DGW checkpoint table has a length,
    [max_checkpoint] is [max(0, start + count * spacing - 1)]; with start
    168 * 2016 = 338688, spacing 2016 and 5000 DGW checkpoints it is
    10418687. *)
Theorem max_checkpoint_formula (P : Net) (n : Z) :
  py_len (DGW_CHECKPOINTS P) = Ok n →
  max_checkpoint P
    = Ok (Z.max 0 (DGW_CHECKPOINTS_START P + n * DGW_CHECKPOINTS_SPACING P - 1))
  ∧ (DGW_CHECKPOINTS_START P = 168 * 2016 → DGW_CHECKPOINTS_SPACING P = 2016 →
     n = 5000 → max_checkpoint P = Ok 10418687).
Proof.
  intros Hlen. unfold max_checkpoint. rewrite Hlen. cbn.
  rewrite py_max_Zmax. split; [reflexivity |].
  intros -> -> ->. reflexivity.
Qed.

Lemma max_checkpoint_formula_witness :
  py_len (DGW_CHECKPOINTS stocked_mainnet) = Ok 5000
  ∧ DGW_CHECKPOINTS_START stocked_mainnet = 338688
  ∧ max_checkpoint stocked_mainnet = Ok 10418687.
Proof.
  split; [reflexivity |]. split; [reflexivity |].
  destruct (max_checkpoint_formula stocked_mainnet 5000 eq_refl) as [_ Hscenario].
  exact (Hscenario eq_refl eq_refl eq_refl).
Defined.

(** C4. For every network class whose legacy checkpoint table has a
    length, [max_legacy_checkpoint] is [max(0, count * 2016 - 1)]; it is 0
    when the table is empty. *)
Theorem max_legacy_checkpoint_formula (P : Net) (n : Z) :
  py_len (CHECKPOINTS P) = Ok n →
  max_legacy_checkpoint P = Ok (Z.max 0 (n * 2016 - 1))
  ∧ (n = 0 → max_legacy_checkpoint P = Ok 0).
Proof.
  intros Hlen. unfold max_legacy_checkpoint. rewrite Hlen. cbn.
  rewrite py_max_Zmax. split; [reflexivity |].
  intros ->. reflexivity.
Qed.

Lemma max_legacy_checkpoint_formula_witness :
  CHECKPOINTS bare_testnet = JList []
  ∧ max_legacy_checkpoint bare_testnet = Ok 0
  ∧ max_legacy_checkpoint stocked_mainnet = Ok 338687.
Proof.
  split; [reflexivity |]. split.
  - destruct (max_legacy_checkpoint_formula bare_testnet 0 eq_refl) as [_ Hempty].
    exact (Hempty eq_refl).
  - exact (proj1 (max_legacy_checkpoint_formula stocked_mainnet 168 eq_refl)).
Defined.

(** ** The module namespace after import *)

Section namespace.
Context `{Host}.

(** C10. In both network classes the P2PKH and the P2SH address-type bytes
    are 23: the byte is the same for the two output kinds and for the two
    networks. *)
Theorem addrtype_bytes_coincide :
  let g := fst import_module in
  ADDRTYPE_P2PKH <$> the_class g "AIPGMainnet" = Ok 23
  ∧ ADDRTYPE_P2SH <$> the_class g "AIPGMainnet" = Ok 23
  ∧ ADDRTYPE_P2PKH <$> the_class g "AIPGTestnet" = Ok 23
  ∧ ADDRTYPE_P2SH <$> the_class g "AIPGTestnet" = Ok 23.
Proof.
  repeat split; vm_compute; reflexivity.
Qed.

Lemma load_name_unbound (g : globals) (name : string) :
  g !! name = None → name ∉ builtins → load_name g name = Raise (NameError name).
Proof.
  intros Hg Hb. unfold load_name. rewrite Hg.
  rewrite bool_decide_eq_false_2; done.
Qed.

Lemma exec_stmt_unbound (g g' : globals) (s : stmt) (name : string) :
  g !! name = None → name ∉ bound_names s → exec_stmt g s = Ok g' →
  g' !! name = None.
Proof.
  intros Hg Hs. destruct s as [bindings | x f | x body | x rhs]; simpl in *.
  - intros [= <-]. revert g Hg. induction bindings as [| [k v] bs IH]; intros g Hg.
    + exact Hg.
    + simpl. apply IH.
      * intros Hin. apply Hs. simpl. by right.
      * rewrite lookup_insert_ne; [exact Hg |].
        intros ->. apply Hs. simpl. by left.
  - intros [= <-]. rewrite lookup_insert_ne; [done |].
    intros ->. apply Hs. by left.
  - destruct (body g); simpl; [| done].
    intros [= <-]. rewrite lookup_insert_ne; [done |].
    intros ->. apply Hs. by left.
  - destruct (rhs g); simpl; [| done].
    intros [= <-]. rewrite lookup_insert_ne; [done |].
    intros ->. apply Hs. by left.
Qed.

(** A name that no statement binds is unbound after the statements have
    run, wherever the execution stops. *)
Lemma exec_unbound (body : list stmt) (g : globals) (name : string) :
  g !! name = None → Forall (fun s => name ∉ bound_names s) body →
  fst (exec body g) !! name = None.
Proof.
  revert g. induction body as [| s rest IH]; intros g Hg Hall; simpl.
  - exact Hg.
  - inversion Hall as [| ? ? Hs Hrest]; subst.
    destruct (exec_stmt g s) as [g' |] eqn:Hstep; simpl.
    + apply IH; [| exact Hrest]. by eapply exec_stmt_unbound.
    + exact Hg.
Qed.

(** Whatever part of the module body has run, neither switch function
    finds the class it names. *)
Lemma switch_fails_after_any_part (body : list stmt) :
  body ⊆ module_body →
  set_mainnet (fst (exec body ∅)) = Raise (NameError "RavencoinMainnet")
  ∧ set_testnet (fst (exec body ∅)) = Raise (NameError "RavencoinTestnet").
Proof.
  intros Hsub.
  assert (Hnames : ∀ name, name = "RavencoinMainnet" ∨ name = "RavencoinTestnet" →
                           Forall (fun s => name ∉ bound_names s) body).
  { intros name Hname. apply Forall_forall. intros s Hs.
    apply Hsub in Hs. unfold module_body in Hs.
    repeat (apply elem_of_cons in Hs as [-> | Hs];
            [destruct Hname as [-> | ->]; name_not_listed |]).
    by apply elem_of_nil in Hs. }
  unfold set_mainnet, set_testnet. split.
  - rewrite load_name_unbound; [done | | name_not_listed].
    apply exec_unbound; [done | apply Hnames; by left].
  - rewrite load_name_unbound; [done | | name_not_listed].
    apply exec_unbound; [done | apply Hnames; by right].
Qed.

(** C2. The top level and the two switch functions name classes that the
    module never defines: importing the module stops at [net = ...] with a
    [NameError] and leaves [net] unbound, and [set_mainnet] and
    [set_testnet] raise a [NameError] too.  The classes the module does
    define are [AIPGMainnet] and [AIPGTestnet]. *)
Theorem undefined_class_names :
  let g := fst import_module in
  let names := concat (map bound_names module_body) in
  snd import_module = Some (NameError "RavencoinMainnet")
  ∧ g !! "net" = None
  ∧ set_mainnet g = Raise (NameError "RavencoinMainnet")
  ∧ set_testnet g = Raise (NameError "RavencoinTestnet")
  ∧ ¬ In "RavencoinMainnet" names
  ∧ ¬ In "RavencoinTestnet" names
  ∧ In "AIPGMainnet" names
  ∧ In "AIPGTestnet" names
  ∧ raises (the_class g "AIPGMainnet") = false
  ∧ raises (the_class g "AIPGTestnet") = false.
Proof.
  repeat split; try (vm_compute; reflexivity).
  - intros Hin. vm_compute in Hin. intuition discriminate.
  - intros Hin. vm_compute in Hin. intuition discriminate.
  - vm_compute. tauto.
  - vm_compute. tauto.
Qed.

(** C1. What the code does for the claim's scenario: after the import,
    [set_testnet()] and [set_mainnet()] raise a [NameError], so no read of
    [net.WIF_PREFIX] follows them; the values 239 and 128 are those of the
    classes [AIPGTestnet] and [AIPGMainnet], which the functions do not
    name. *)
Theorem switch_then_read_wif_prefix :
  let g := fst import_module in
  (g' ← set_testnet g; net_attr g' WIF_PREFIX "WIF_PREFIX")
    = Raise (NameError "RavencoinTestnet")
  ∧ (g' ← set_mainnet g; net_attr g' WIF_PREFIX "WIF_PREFIX")
    = Raise (NameError "RavencoinMainnet")
  ∧ WIF_PREFIX <$> the_class g "AIPGTestnet" = Ok 239
  ∧ WIF_PREFIX <$> the_class g "AIPGMainnet" = Ok 128.
Proof.
  repeat split; vm_compute; reflexivity.
Qed.

End namespace.

(** ** Inverting a dictionary *)

Section dict_get.
Context {K V : Type} `{EqDecision K}.

Lemma dict_get_set (d : pydict K V) (k k' : K) (v : V) :
  dict_get (dict_set d k v) k' = if decide (k = k') then Some v else dict_get d k'.
Proof.
  induction d as [| [k0 v0] d IH]; simpl.
  - destruct (decide (k = k')); reflexivity.
  - destruct (decide (k0 = k)) as [-> | Hne]; simpl.
    + destruct (decide (k = k')); reflexivity.
    + rewrite IH. destruct (decide (k0 = k')) as [-> | Hne'].
      * rewrite decide_False; [reflexivity | congruence].
      * reflexivity.
Qed.

Lemma dict_get_elem_of (d : pydict K V) (k : K) (v : V) :
  dict_get d k = Some v → (k, v) ∈ d.
Proof.
  induction d as [| [k0 v0] d IH]; simpl; [done |].
  destruct (decide (k0 = k)) as [-> | Hne].
  - intros [= ->]. by left.
  - intros Hget. right. by apply IH.
Qed.

End dict_get.

Section inv_dict.
Context {K V : Type} `{EqDecision K} `{EqDecision V}.

(** Inverting item by item: each item overwrites what earlier items stored
    under its value, so the last item carrying a value decides. *)
Lemma inv_dict_fold (d : pydict K V) (acc : pydict V K) (v : V) :
  dict_get (fold_left (fun acc kv => dict_set acc (snd kv) (fst kv)) d acc) v
  = match last (items_with_value d v) with
    | Some kv => Some (fst kv)
    | None => dict_get acc v
    end.
Proof.
  revert acc. induction d as [| [k0 v0] d IH]; intros acc; [reflexivity |].
  cbn [fold_left]. rewrite IH. unfold items_with_value. rewrite filter_cons.
  cbn [fst snd].
  destruct (decide (v0 = v)) as [-> | Hne].
  - rewrite last_cons. destruct (last (filter _ d)); [reflexivity |].
    rewrite dict_get_set, decide_True; reflexivity.
  - destruct (last (filter _ d)); [reflexivity |].
    rewrite dict_get_set, decide_False; done.
Qed.

Lemma items_with_value_none (d : pydict K V) (v : V) :
  v ∉ map snd d → items_with_value d v = [].
Proof.
  unfold items_with_value.
  induction d as [| [k0 v0] d IH]; intros Hv; [reflexivity |].
  rewrite filter_cons. cbn [fst snd map] in *. rewrite decide_False.
  - apply IH. intros Hin. apply Hv. by right.
  - intros ->. apply Hv. by left.
Qed.

Lemma items_with_value_unique (d : pydict K V) (k : K) (v : V) :
  NoDup (map snd d) → (k, v) ∈ d → items_with_value d v = [(k, v)].
Proof.
  induction d as [| [k0 v0] d IH]; intros Hnd Hin.
  - by apply elem_of_nil in Hin.
  - cbn [map snd] in Hnd. apply NoDup_cons in Hnd as [Hv0 Hnd].
    unfold items_with_value. rewrite filter_cons. cbn [fst snd].
    apply elem_of_cons in Hin as [[= <- <-] | Hin].
    + rewrite decide_True by reflexivity.
      f_equal. by apply items_with_value_none.
    + rewrite decide_False; [by apply IH |].
      intros ->. apply Hv0. apply list_elem_of_fmap. by exists (k, v).
Qed.

(** A dictionary without repeated values is injective, and [inv_dict]
    inverts it. *)
Lemma inv_dict_inverts (d : pydict K V) :
  NoDup (map snd d) →
  injective_dict d
  ∧ ∀ k v, dict_get d k = Some v → dict_get (inv_dict d) v = Some k.
Proof.
  intros Hnd. split.
  - intros k1 k2 v H1 H2.
    apply dict_get_elem_of, (items_with_value_unique _ _ _ Hnd) in H1.
    apply dict_get_elem_of, (items_with_value_unique _ _ _ Hnd) in H2.
    congruence.
  - intros k v Hget. unfold inv_dict. rewrite inv_dict_fold.
    apply dict_get_elem_of in Hget.
    by rewrite (items_with_value_unique _ _ _ Hnd Hget).
Qed.

End inv_dict.

(** C5, as the code has it.  [inv_dict] makes no check of its argument: it
    returns for every version map, and when several scheme identifiers
    carry one version integer the inverse map sends that integer to the
    identifier that comes last in the map; the earlier ones are
    overwritten. *)
Theorem inv_dict_last_wins `{Host} (d : pydict string Z) (v : Z) :
  call_inv_dict (fst import_module) d = Ok (inv_dict d)
  ∧ dict_get (inv_dict d) v = fst <$> last (items_with_value d v).
Proof.
  split.
  - reflexivity.
  - unfold inv_dict. rewrite inv_dict_fold.
    destruct (last (items_with_value d v)); reflexivity.
Qed.

(** C5, the claim as stated fails: a private-key map that gives [standard]
    and [p2wpkh] the same version integer is inverted without an error,
    and the inverse map holds [p2wpkh] alone. *)
Lemma inv_dict_duplicate_overwrites :
  let d := dict_literal [ ("standard", 0x0488ade4); ("p2wpkh", 0x0488ade4) ] in
  let g := fst (@import_module bare_host) in
  raises (call_inv_dict g d) = false
  ∧ call_inv_dict g d = Ok [ (0x0488ade4, "p2wpkh") ]
  ∧ dict_get (inv_dict d) 0x0488ade4 ≠ Some "standard".
Proof.
  intros d g. split; [| split].
  - vm_compute. reflexivity.
  - vm_compute. reflexivity.
  - vm_compute. discriminate.
Qed.

(** C6. In [AIPGMainnet] and in [AIPGTestnet], [XPRV_HEADERS] and
    [XPUB_HEADERS] have the five scheme identifiers as keys and are
    injective, and looking a scheme's version up in the computed inverse
    map gives the scheme back. *)
Theorem version_maps_injective `{Host} :
  Forall (fun name =>
    ∃ P, the_class (fst import_module) name = Ok P
      ∧ dict_keys (XPRV_HEADERS P) = schemes
      ∧ dict_keys (XPUB_HEADERS P) = schemes
      ∧ injective_dict (XPRV_HEADERS P)
      ∧ injective_dict (XPUB_HEADERS P)
      ∧ Forall (fun k =>
          dict_get (XPRV_HEADERS P) k ≫= dict_get (XPRV_HEADERS_INV P) = Some k
          ∧ dict_get (XPUB_HEADERS P) k ≫= dict_get (XPUB_HEADERS_INV P) = Some k)
        schemes)
    [ "AIPGMainnet"; "AIPGTestnet" ].
Proof.
  apply List.Forall_cons; [| apply List.Forall_cons; [| apply List.Forall_nil]].
  all: eexists; split; [vm_compute; reflexivity |].
  all: split; [reflexivity |]; split; [reflexivity |].
  all: split; [refine (proj1 (inv_dict_inverts _ _));
               refine (bool_decide_unpack _ _); vm_compute; exact I |].
  all: split; [refine (proj1 (inv_dict_inverts _ _));
               refine (bool_decide_unpack _ _); vm_compute; exact I |].
  all: unfold schemes; repeat apply List.Forall_cons; try apply List.Forall_nil.
  all: split; vm_compute; reflexivity.
Qed.

(** ** Hexadecimal strings *)

Lemma hex_digit_value_bound (c : ascii) (n : N) :
  hex_digit_value c = Some n → (n < 16)%N.
Proof.
  unfold hex_digit_value. cbv zeta. generalize (N_of_ascii c) as m. intros m.
  repeat match goal with
         | |- context [if (?x && ?y)%bool then _ else _] =>
             let E := fresh "E" in
             destruct (x && y)%bool eqn:E;
             [apply andb_prop in E as [_ E%N.leb_le] |]
         end; intros [= <-]; lia.
Qed.

Lemma byte_of_nibbles_total (hi lo : N) :
  (hi < 16)%N → (lo < 16)%N → ∃ b, byte_of_nibbles hi lo = Some b.
Proof.
  intros Hhi Hlo. unfold byte_of_nibbles.
  destruct (Byte.of_N (16 * hi + lo)) as [b |] eqn:Hb; [by exists b |].
  apply Byte.of_N_None_iff in Hb. lia.
Qed.

(** The two digits that [hex] writes for a byte are read back as that
    byte, and neither is whitespace. *)
Lemma nibble_chars_of_byte (b : Byte.byte) :
  let n := Byte.to_N b in
  is_ascii_space (nibble_char (n / 16)) = false
  ∧ hex_digit_value (nibble_char (n / 16)) = Some (n / 16)%N
  ∧ hex_digit_value (nibble_char (n mod 16)) = Some (n mod 16)%N
  ∧ byte_of_nibbles (n / 16) (n mod 16) = Some b.
Proof.
  destruct b; vm_compute; repeat split.
Qed.

Lemma bytes_fromhex_hex (bs : list Byte.byte) :
  bytes_fromhex (bytes_hex bs) = Ok bs.
Proof.
  induction bs as [| b bs IH]; [reflexivity |].
  destruct (nibble_chars_of_byte b) as (Hsp & Hhi & Hlo & Hb).
  cbn [bytes_hex bytes_fromhex]. rewrite Hsp, Hhi, Hlo, Hb, IH. reflexivity.
Qed.

Lemma hex_decode_valid_pairs (s : string) :
  hex_decode_outcome s ∧ ∀ c, hex_decode_outcome (String c s).
Proof.
  induction s as [| d s [IH0 IH1]].
  - split; [reflexivity |].
    intros c. unfold hex_decode_outcome, valid_hex. cbn.
    split; [by rewrite !andb_false_r | by eexists].
  - split; [apply IH1 |].
    intros c. unfold hex_decode_outcome, valid_hex in *.
    cbn [hex_decode all_hex_digits String.length Nat.even]. unfold is_hex_digit.
    destruct (hex_digit_value c) as [hi |] eqn:Hc;
      [| split; [reflexivity | by eexists]].
    destruct (hex_digit_value d) as [lo |] eqn:Hd;
      [| split; [reflexivity | by eexists]].
    destruct (byte_of_nibbles_total hi lo) as [b Hb];
      [by eapply hex_digit_value_bound | by eapply hex_digit_value_bound |].
    rewrite Hb. cbn [andb].
    destruct (hex_decode s) as [bs | e]; exact IH0.
Qed.

(** C7. For every network class whose [GENESIS] is a valid hexadecimal
    string of even length, [rev_genesis_bytes] returns the bytes of the
    decoded string in reverse order, and reversing its result gives the
    decoded bytes back; when [GENESIS] is not such a string it raises a
    [ValueError]. *)
Theorem rev_genesis_bytes_reverses (P : Net) (g : string) :
  GENESIS P = Some g →
  if valid_hex g then
    ∃ bs, hex_decode g = Ok bs
      ∧ rev_genesis_bytes P = Ok (rev bs)
      ∧ @rev Byte.byte <$> rev_genesis_bytes P = Ok bs
  else ∃ msg, rev_genesis_bytes P = Raise (ValueError msg).
Proof.
  intros Hg. unfold rev_genesis_bytes, rev_hex. rewrite Hg.
  pose proof (proj1 (hex_decode_valid_pairs g)) as Hout.
  unfold hex_decode_outcome in Hout.
  destruct (hex_decode g) as [bs | e]; cbn.
  - rewrite Hout. exists bs. rewrite bytes_fromhex_hex. cbn.
    by rewrite rev_involutive.
  - destruct Hout as [-> [msg ->]]. by exists msg.
Qed.

Lemma rev_genesis_bytes_reverses_witness :
  rev_genesis_bytes stocked_mainnet
    = Ok (rev [ Byte.x00; Byte.x00; Byte.x00; Byte.xfe; Byte.x8c; Byte.x99;
                Byte.xa7; Byte.xaa; Byte.xcc; Byte.x5a; Byte.xff; Byte.x07;
                Byte.x42; Byte.x78; Byte.xa8; Byte.x37; Byte.x8e; Byte.x62;
                Byte.x5c; Byte.x0d; Byte.x02; Byte.xe4; Byte.x89; Byte.x4d;
                Byte.xb8; Byte.xf0; Byte.x9b; Byte.xab; Byte.x18; Byte.x5f;
                Byte.x4e; Byte.xb6 ])
  ∧ (∃ msg, rev_genesis_bytes (with_GENESIS stocked_mainnet (Some "00000g"))
              = Raise (ValueError msg))
  ∧ (∃ msg, rev_genesis_bytes (with_GENESIS stocked_mainnet (Some "000"))
              = Raise (ValueError msg)).
Proof.
  split; [| split].
  - pose proof (rev_genesis_bytes_reverses stocked_mainnet _ eq_refl) as Hvalid.
    cbv beta iota delta [valid_hex all_hex_digits] in Hvalid.
    destruct Hvalid as (bs & Hdec & Hrev & _).
    vm_compute in Hdec. injection Hdec as <-. exact Hrev.
  - exact (rev_genesis_bytes_reverses
             (with_GENESIS stocked_mainnet (Some "00000g")) _ eq_refl).
  - exact (rev_genesis_bytes_reverses
             (with_GENESIS stocked_mainnet (Some "000")) _ eq_refl).
Defined.

(** ** Loading the bundled resources *)

Section resources.
Context `{Host}.

Lemma read_json_unreadable (filename : string) (default : json) :
  unreadable filename → read_json filename default = default.
Proof.
  unfold unreadable, read_json. cbv zeta.
  destruct (read_text (path_join_module_dir filename)) as [s | e]; cbn.
  - destruct (json_loads s); [contradiction | reflexivity].
  - reflexivity.
Qed.

(** The checkpoint tables of the mainnet class are what [read_json]
    returns for the two bundled files. *)
Lemma mainnet_checkpoint_tables :
  ∃ P, the_class (fst import_module) "AIPGMainnet" = Ok P
    ∧ CHECKPOINTS P = read_json "checkpoints.json" (JList [])
    ∧ DGW_CHECKPOINTS P = read_json "checkpoints_dgw.json" (JList []).
Proof.
  eexists. split; [vm_compute; reflexivity |]. split; reflexivity.
Qed.

(** C8. What the code does for the claim's scenario.  [read_json] returns
    its default, without raising, for a resource that is missing or
    malformed, and with a corrupt legacy checkpoint file the mainnet class
    is created with an empty [CHECKPOINTS] table, of length 0, and
    [max_legacy_checkpoint] is 0.  Startup is aborted all the same: every
    statement before the binding of [net] completes, and that binding
    raises [NameError] whatever the resources are, so the import of the
    module fails. *)
Theorem corrupt_resource_degrades :
  (∀ filename default, unreadable filename → read_json filename default = default)
  ∧ snd (exec (take 15 module_body) ∅) = None
  ∧ snd import_module = Some (NameError "RavencoinMainnet")
  ∧ (unreadable "checkpoints.json" →
     ∃ P, the_class (fst import_module) "AIPGMainnet" = Ok P
       ∧ CHECKPOINTS P = JList []
       ∧ py_len (CHECKPOINTS P) = Ok 0
       ∧ max_legacy_checkpoint P = Ok 0).
Proof.
  split; [exact read_json_unreadable |]. split; [vm_compute; reflexivity |].
  split; [vm_compute; reflexivity |].
  intros Hbad. destruct mainnet_checkpoint_tables as (P & HP & Hlegacy & _).
  exists P. rewrite (read_json_unreadable _ _ Hbad) in Hlegacy.
  split; [exact HP |]. split; [exact Hlegacy |].
  unfold max_legacy_checkpoint. rewrite Hlegacy. split; reflexivity.
Qed.

End resources.

Lemma corrupt_resource_degrades_witness :
  @unreadable corrupt_host "checkpoints.json"
  ∧ @unreadable corrupt_host "servers.json"
  ∧ @read_json corrupt_host "servers.json" (JDict []) = JDict []
  ∧ snd (@import_module corrupt_host) = Some (NameError "RavencoinMainnet")
  ∧ ∃ P, the_class (fst (@import_module corrupt_host)) "AIPGMainnet" = Ok P
      ∧ CHECKPOINTS P = JList []
      ∧ py_len (CHECKPOINTS P) = Ok 0
      ∧ max_legacy_checkpoint P = Ok 0.
Proof.
  assert (Hlegacy : @unreadable corrupt_host "checkpoints.json") by exact I.
  assert (Hservers : @unreadable corrupt_host "servers.json") by exact I.
  destruct (@corrupt_resource_degrades corrupt_host) as (Hload & _ & Habort & Hclass).
  split; [exact Hlegacy |]. split; [exact Hservers |].
  split; [exact (Hload _ _ Hservers) |].
  split; [exact Habort | exact (Hclass Hlegacy)].
Defined.

(** ** The burn tables *)

Lemma BurnAmounts_new_raises (kw : kwargs pynum) :
  raises (BurnAmounts_new kw)
  = negb (forallb (has_keyword kw) BurnAmounts_fields
          && known_keywords BurnAmounts_fields kw).
Proof.
  unfold BurnAmounts_new.
  destruct (known_keywords BurnAmounts_fields kw);
    [rewrite andb_true_r | by rewrite andb_false_r].
  unfold BurnAmounts_fields, has_keyword, kwarg. cbn [forallb].
  repeat match goal with
         | |- context [dict_get kw ?f] =>
             destruct (dict_get kw f); [cbn | reflexivity]
         end.
  reflexivity.
Qed.

Lemma BurnAddresses_new_raises (kw : kwargs string) :
  raises (BurnAddresses_new kw)
  = negb (forallb (has_keyword kw) BurnAddresses_fields
          && known_keywords BurnAddresses_fields kw).
Proof.
  unfold BurnAddresses_new.
  destruct (known_keywords BurnAddresses_fields kw);
    [rewrite andb_true_r | by rewrite andb_false_r].
  unfold BurnAddresses_fields, has_keyword, kwarg. cbn [forallb].
  repeat match goal with
         | |- context [dict_get kw ?f] =>
             destruct (dict_get kw f); [cbn | reflexivity]
         end.
  reflexivity.
Qed.

(** C9. In [AIPGMainnet] and in [AIPGTestnet] each of the nine fields of
    [BURN_AMOUNTS] holds an amount, which is not negative, and each of the
    ten fields of [BURN_ADDRESSES] holds an address.  The constructors
    enforce this when the class is created: they raise as soon as the
    arguments leave a field out or name an unknown one. *)
Theorem burn_tables_exhaustive `{Host} :
  Forall (fun name =>
    ∃ P, the_class (fst import_module) name = Ok P
      ∧ Forall (fun f => ∃ a, BurnAmounts_getattr (BURN_AMOUNTS P) f = Ok a
                             ∧ pynum_nonneg a = true) BurnAmounts_fields
      ∧ Forall (fun f => ∃ a, BurnAddresses_getattr (BURN_ADDRESSES P) f = Ok a)
          BurnAddresses_fields)
    [ "AIPGMainnet"; "AIPGTestnet" ]
  ∧ length BurnAmounts_fields = 9%nat
  ∧ length BurnAddresses_fields = 10%nat
  ∧ NoDup BurnAmounts_fields
  ∧ NoDup BurnAddresses_fields
  ∧ (∀ kw, raises (BurnAmounts_new kw)
           = negb (forallb (has_keyword kw) BurnAmounts_fields
                   && known_keywords BurnAmounts_fields kw))
  ∧ (∀ kw, raises (BurnAddresses_new kw)
           = negb (forallb (has_keyword kw) BurnAddresses_fields
                   && known_keywords BurnAddresses_fields kw)).
Proof.
  split.
  { apply List.Forall_cons; [| apply List.Forall_cons; [| apply List.Forall_nil]].
    all: eexists; split; [vm_compute; reflexivity |].
    all: split; unfold BurnAmounts_fields, BurnAddresses_fields.
    all: repeat apply List.Forall_cons; try apply List.Forall_nil.
    all: eexists; try split; vm_compute; reflexivity. }
  split; [reflexivity |]. split; [reflexivity |].
  split; [refine (bool_decide_unpack _ _); vm_compute; exact I |].
  split; [refine (bool_decide_unpack _ _); vm_compute; exact I |].
  split; [exact BurnAmounts_new_raises | exact BurnAddresses_new_raises].
Qed.

(** ** More on [inv_dict] *)

Section dict_set_facts.
Context {K V : Type} `{EqDecision K}.

Lemma dict_set_fresh (d : pydict K V) (k : K) (v : V) :
  k ∉ dict_keys d → dict_set d k v = (d ++ [(k, v)])%list.
Proof.
  unfold dict_keys. induction d as [| [k0 v0] d IH]; intros Hk; [reflexivity |].
  cbn [map fst] in Hk. apply not_elem_of_cons in Hk as [Hne Hk].
  cbn [dict_set]. rewrite decide_False by congruence.
  cbn [app]. f_equal. by apply IH.
Qed.

Lemma dict_set_keys (d : pydict K V) (k : K) (v : V) :
  dict_keys (dict_set d k v)
  = if bool_decide (k ∈ dict_keys d) then dict_keys d else (dict_keys d ++ [k])%list.
Proof.
  unfold dict_keys. induction d as [| [k0 v0] d IH]; [reflexivity |].
  cbn [dict_set map fst]. destruct (decide (k0 = k)) as [-> | Hne].
  - rewrite bool_decide_eq_true_2 by (by left). reflexivity.
  - cbn [map fst]. rewrite IH. destruct (bool_decide_reflect (k ∈ map fst d)) as [Hin | Hin].
    + rewrite bool_decide_eq_true_2 by (by right). reflexivity.
    + rewrite bool_decide_eq_false_2; [reflexivity |].
      intros [? | ?]%elem_of_cons; congruence.
Qed.

Lemma dict_get_of_elem (d : pydict K V) (k : K) (v : V) :
  NoDup (dict_keys d) → (k, v) ∈ d → dict_get d k = Some v.
Proof.
  unfold dict_keys. induction d as [| [k0 v0] d IH]; intros Hnd Hin.
  - by apply elem_of_nil in Hin.
  - cbn [map fst] in Hnd. apply NoDup_cons in Hnd as [Hk0 Hnd].
    cbn [dict_get]. apply elem_of_cons in Hin as [[= <- <-] | Hin].
    + by rewrite decide_True.
    + rewrite decide_False; [by apply IH |].
      intros ->. apply Hk0. apply list_elem_of_fmap. by exists (k, v).
Qed.

End dict_set_facts.

Section inv_dict_swap.
Context {K V : Type} `{EqDecision V}.

Lemma inv_dict_fold_swap (d : pydict K V) (acc : pydict V K) :
  NoDup (map snd d) → (∀ v, v ∈ map snd d → v ∉ dict_keys acc) →
  fold_left (fun acc kv => dict_set acc (snd kv) (fst kv)) d acc
  = (acc ++ map prod_swap d)%list.
Proof.
  revert acc. induction d as [| [k0 v0] d IH]; intros acc Hnd Hfresh.
  - cbn. by rewrite app_nil_r.
  - cbn [map snd] in Hnd. apply NoDup_cons in Hnd as [Hv0 Hnd].
    cbn [fold_left fst snd]. rewrite dict_set_fresh by (apply Hfresh; by left).
    rewrite IH; [by rewrite <- app_assoc | done |].
    intros v Hv. unfold dict_keys. rewrite map_app, elem_of_app.
    intros [Hin | Hin%list_elem_of_singleton].
    + eapply Hfresh; [by right | done].
    + cbn in Hin. by subst.
Qed.

End inv_dict_swap.

Section inv_dict_more.
Context {K V : Type} `{EqDecision K} `{EqDecision V}.

(** The accumulator of the comprehension, item by item. *)
Lemma inv_dict_fold_keys (d : pydict K V) (acc : pydict V K) :
  let r := fold_left (fun acc kv => dict_set acc (snd kv) (fst kv)) d acc in
  (NoDup (dict_keys acc) → NoDup (dict_keys r))
  ∧ (∀ v, v ∈ dict_keys r ↔ v ∈ dict_keys acc ∨ v ∈ map snd d)
  ∧ (length r ≤ length acc + length d)%nat.
Proof.
  revert acc. induction d as [| [k0 v0] d IH]; intros acc; cbn [fold_left].
  - split; [done |]. split; [| cbn; lia].
    intros v. split; [by left | intros [? | Hin]; [done | by apply elem_of_nil in Hin]].
  - destruct (IH (dict_set acc v0 k0)) as (Hnd & Hin & Hlen). cbn [fst snd] in *.
    assert (Hkeys := dict_set_keys acc v0 k0).
    destruct (bool_decide_reflect (v0 ∈ dict_keys acc)) as [Hold | Hnew].
    + split; [intros Ha; apply Hnd; by rewrite Hkeys |]. split.
      * intros v. rewrite Hin, Hkeys. cbn [map snd]. rewrite elem_of_cons.
        split; [tauto |]. intros [? | [-> | ?]]; tauto.
      * apply (f_equal length) in Hkeys. unfold dict_keys in Hkeys.
        rewrite !length_map in Hkeys. cbn [length]. lia.
    + split; [| split].
      * intros Ha. apply Hnd. rewrite Hkeys. apply NoDup_app.
        split; [done |]. split; [| apply NoDup_singleton].
        intros x Hx ->%list_elem_of_singleton. done.
      * intros v. rewrite Hin, Hkeys. cbn [map snd].
        rewrite elem_of_app, list_elem_of_singleton, elem_of_cons. tauto.
      * apply (f_equal length) in Hkeys. unfold dict_keys in Hkeys.
        rewrite length_app, !length_map in Hkeys. cbn [length] in *. lia.
Qed.

(** X1. A dictionary without repeated values is inverted item by item, in
    the same order; inverting twice gives the dictionary back. *)
Theorem inv_dict_involutive (d : pydict K V) :
  NoDup (dict_keys d) → NoDup (map snd d) →
  inv_dict d = map prod_swap d ∧ inv_dict (inv_dict d) = d.
Proof.
  intros Hkeys Hvals.
  assert (Hswap : inv_dict d = map prod_swap d).
  { unfold inv_dict. rewrite inv_dict_fold_swap; [done | done |].
    intros v _ Hin. by apply elem_of_nil in Hin. }
  split; [exact Hswap |].
  rewrite Hswap. unfold inv_dict. rewrite inv_dict_fold_swap.
  - cbn [app]. rewrite map_map. rewrite <- (map_id d) at 2.
    apply map_ext. by intros [k v].
  - rewrite map_map. erewrite map_ext; [exact Hkeys |]. by intros [k v].
  - intros v _ Hin. by apply elem_of_nil in Hin.
Qed.

(** X2. The inverse has one entry per distinct value of [d]: its keys are
    distinct, they are the values of [d], and it is as long as [d] exactly
    when no value of [d] is repeated. *)
Theorem inv_dict_keys (d : pydict K V) :
  NoDup (dict_keys (inv_dict d))
  ∧ (∀ v, v ∈ dict_keys (inv_dict d) ↔ v ∈ map snd d)
  ∧ (length (inv_dict d) ≤ length d)%nat
  ∧ (length (inv_dict d) = length d ↔ NoDup (map snd d)).
Proof.
  destruct (inv_dict_fold_keys d []) as (Hnd & Hin & Hlen). cbn in Hnd, Hin, Hlen.
  fold (inv_dict d) in Hnd, Hin, Hlen.
  assert (Hnd' : NoDup (dict_keys (inv_dict d))) by (apply Hnd, NoDup_nil_2).
  assert (Hin' : ∀ v, v ∈ dict_keys (inv_dict d) ↔ v ∈ map snd d).
  { intros v. rewrite Hin. split; [intros [Hv | Hv]; [by apply elem_of_nil in Hv | done] | by right]. }
  split; [exact Hnd' |]. split; [exact Hin' |]. split; [exact Hlen |].
  split.
  - intros Hl.
    assert (Hsub : dict_keys (inv_dict d) ⊆+ map snd d).
    { apply NoDup_submseteq; [exact Hnd' | intros v; apply Hin']. }
    assert (Hperm : dict_keys (inv_dict d) ≡ₚ map snd d).
    { apply submseteq_length_Permutation; [exact Hsub |].
      unfold dict_keys. rewrite !length_map. lia. }
    by rewrite <- Hperm.
  - intros Hvals. unfold inv_dict. rewrite inv_dict_fold_swap.
    + cbn [app]. by rewrite length_map.
    + exact Hvals.
    + intros v _ Hv. by apply elem_of_nil in Hv.
Qed.

(** X3. Every entry of the inverse comes from [d]: if the inverse sends
    [v] to [k] then [d] sends [k] to [v]; and the inverse is defined on
    every value that [d] takes. *)
Theorem inv_dict_sound (d : pydict K V) (k : K) (v : V) :
  NoDup (dict_keys d) →
  (dict_get (inv_dict d) v = Some k → dict_get d k = Some v)
  ∧ (dict_get d k = Some v → is_Some (dict_get (inv_dict d) v)).
Proof.
  intros Hkeys. unfold inv_dict. rewrite inv_dict_fold. split.
  - destruct (last (items_with_value d v)) as [[k' v'] |] eqn:Hlast; [| done].
    intros [= <-]. apply last_Some_elem_of in Hlast.
    unfold items_with_value in Hlast. apply list_elem_of_filter in Hlast as [Hv Hin].
    cbn in Hv. subst v'. by apply dict_get_of_elem.
  - intros Hget. apply dict_get_elem_of in Hget.
    assert (Hin : (k, v) ∈ items_with_value d v).
    { unfold items_with_value. apply list_elem_of_filter. by split. }
    destruct (last (items_with_value d v)) as [kv |] eqn:Hlast; [by eexists |].
    apply last_None in Hlast. rewrite Hlast in Hin. by apply elem_of_nil in Hin.
Qed.

End inv_dict_more.

Lemma inv_dict_involutive_witness :
  let d := stocked_mainnet.(XPRV_HEADERS) in
  inv_dict d = XPRV_HEADERS_INV stocked_mainnet
  ∧ inv_dict (XPRV_HEADERS_INV stocked_mainnet) = d.
Proof.
  intros d.
  assert (Hkeys : NoDup (dict_keys d)) by (refine (bool_decide_unpack _ _); vm_compute; exact I).
  assert (Hvals : NoDup (map snd d)) by (refine (bool_decide_unpack _ _); vm_compute; exact I).
  destruct (inv_dict_involutive d Hkeys Hvals) as [Hswap Hinv].
  split; [reflexivity | exact Hinv].
Defined.

Lemma inv_dict_sound_witness :
  dict_get (XPUB_HEADERS bare_testnet) "p2wsh" = Some 0x02575483
  ∧ is_Some (dict_get (inv_dict (XPUB_HEADERS bare_testnet)) 0x02575483).
Proof.
  assert (Hkeys : NoDup (dict_keys (XPUB_HEADERS bare_testnet)))
    by (refine (bool_decide_unpack _ _); vm_compute; exact I).
  destruct (inv_dict_sound (XPUB_HEADERS bare_testnet) "p2wsh" 0x02575483 Hkeys)
    as [Hback Hdef].
  split; [exact (Hback eq_refl) | exact (Hdef eq_refl)].
Defined.

(** ** More on the checkpoint bounds *)

Lemma py_len_nonneg (x : json) (n : Z) : py_len x = Ok n → 0 ≤ n.
Proof.
  destruct x; cbn; intros [= <-]; lia.
Qed.

Lemma py_len_has_len (x : json) : raises (py_len x) = negb (has_len x).
Proof.
  destruct x; reflexivity.
Qed.

(** X4. When the legacy table has a length, a bound of 0 means that the
    table is empty; otherwise the bound is the last height of the
    2016-block interval of the last checkpoint, at least 2015, and the
    number of checkpoints is read back from it. *)
Theorem max_legacy_checkpoint_shape (P : Net) (n h : Z) :
  py_len (CHECKPOINTS P) = Ok n → max_legacy_checkpoint P = Ok h →
  (n = 0 ∧ h = 0)
  ∨ (1 ≤ n ∧ h = n * 2016 - 1 ∧ 2015 ≤ h ∧ (h + 1) / 2016 = n).
Proof.
  intros Hlen. pose proof (py_len_nonneg _ _ Hlen) as Hn.
  unfold max_legacy_checkpoint. rewrite Hlen. cbn. rewrite py_max_Zmax.
  intros [= <-]. destruct (decide (n = 0)) as [-> | Hne]; [by left |].
  right. rewrite Z.max_r by lia. repeat split; try lia.
  replace (n * 2016 - 1 + 1) with (n * 2016) by lia. by apply Z.div_mul.
Qed.

Lemma max_legacy_checkpoint_shape_witness :
  max_legacy_checkpoint stocked_mainnet = Ok 338687
  ∧ (338687 + 1) / 2016 = 168
  ∧ max_legacy_checkpoint bare_mainnet = Ok 0.
Proof.
  destruct (max_legacy_checkpoint_shape stocked_mainnet 168 338687 eq_refl eq_refl)
    as [[Hn _] | (_ & _ & _ & Hcount)]; [discriminate Hn |].
  destruct (max_legacy_checkpoint_shape bare_mainnet 0 0 eq_refl eq_refl)
    as [[_ Hh] | (Hn & _)]; [| contradiction Hn; reflexivity].
  split; [reflexivity |]. split; [exact Hcount | reflexivity].
Defined.

(** X5. Between two classes with the same DGW start and the same
    non-negative spacing, the one with more DGW checkpoints has the larger
    bound; the bound is never negative. *)
Theorem max_checkpoint_monotone (P Q : Net) (n m : Z) :
  DGW_CHECKPOINTS_START P = DGW_CHECKPOINTS_START Q →
  DGW_CHECKPOINTS_SPACING P = DGW_CHECKPOINTS_SPACING Q →
  0 ≤ DGW_CHECKPOINTS_SPACING P →
  py_len (DGW_CHECKPOINTS P) = Ok n → py_len (DGW_CHECKPOINTS Q) = Ok m → n ≤ m →
  ∃ hp hq, max_checkpoint P = Ok hp ∧ max_checkpoint Q = Ok hq ∧ 0 ≤ hp ≤ hq.
Proof.
  intros Hstart Hspacing Hpos HP HQ Hnm. unfold max_checkpoint.
  rewrite HP, HQ. cbn. rewrite !py_max_Zmax, <- Hstart, <- Hspacing.
  eexists _, _. split; [reflexivity |]. split; [reflexivity |]. nia.
Qed.

Lemma max_checkpoint_monotone_witness :
  ∃ hp hq, max_checkpoint bare_mainnet = Ok hp
         ∧ max_checkpoint stocked_mainnet = Ok hq ∧ 0 ≤ hp ≤ hq.
Proof.
  apply (max_checkpoint_monotone bare_mainnet stocked_mainnet 0 5000);
    [reflexivity | reflexivity | discriminate | reflexivity | reflexivity | discriminate].
Defined.

Section checkpoint_tables.
Context `{Host}.

(** The checkpoint attributes of the two classes, as their bodies assign
    them. *)
Lemma class_checkpoint_attributes :
  ∃ M T, the_class (fst import_module) "AIPGMainnet" = Ok M
    ∧ the_class (fst import_module) "AIPGTestnet" = Ok T
    ∧ CHECKPOINTS M = read_json "checkpoints.json" (JList [])
    ∧ DGW_CHECKPOINTS M = read_json "checkpoints_dgw.json" (JList [])
    ∧ DGW_CHECKPOINTS_START M = 338688 ∧ DGW_CHECKPOINTS_SPACING M = 2016
    ∧ CHECKPOINTS T = JList []
    ∧ DGW_CHECKPOINTS T = read_json "checkpoints_dgw_testnet.json" (JList [])
    ∧ DGW_CHECKPOINTS_START T = 0 ∧ DGW_CHECKPOINTS_SPACING T = 2016.
Proof.
  eexists _, _. split; [vm_compute; reflexivity |].
  split; [vm_compute; reflexivity |]. repeat split.
Qed.

Lemma read_json_parsed (filename s : string) (j default : json) :
  read_text (path_join_module_dir filename) = Ok s → json_loads s = Ok j →
  read_json filename default = j.
Proof.
  intros Hread Hparse. unfold read_json. cbv zeta. rewrite Hread. cbn.
  by rewrite Hparse.
Qed.

(** X6. A legacy checkpoint file that parses is taken as it is, whatever
    it holds: the default [[]] is not used and the value is not checked to
    be a list.  The mainnet class is created all the same, and
    [max_legacy_checkpoint] raises a [TypeError] when the value has no
    length ([null], a number, a boolean). *)
Theorem parsed_resource_not_validated (s : string) (j : json) :
  read_text (path_join_module_dir "checkpoints.json") = Ok s → json_loads s = Ok j →
  ∃ P, the_class (fst import_module) "AIPGMainnet" = Ok P
    ∧ CHECKPOINTS P = j
    ∧ if has_len j
      then ∃ n, py_len j = Ok n ∧ max_legacy_checkpoint P = Ok (Z.max 0 (n * 2016 - 1))
      else ∃ msg, max_legacy_checkpoint P = Raise (TypeError msg).
Proof.
  intros Hread Hparse.
  destruct class_checkpoint_attributes as (M & _ & HM & _ & Hlegacy & _).
  rewrite (read_json_parsed _ _ _ _ Hread Hparse) in Hlegacy.
  exists M. split; [exact HM |]. split; [exact Hlegacy |].
  clear HM Hread Hparse. unfold max_legacy_checkpoint. rewrite Hlegacy.
  destruct j; cbn [has_len py_len mbind result_bind];
    first [ eexists; reflexivity
          | eexists; split; [reflexivity | rewrite py_max_Zmax; reflexivity] ].
Qed.

(** X7. On mainnet the DGW bound is 338687 + 2016 * count: it is never
    clamped, and with a missing or unparsable DGW file it is 338687 although
    no DGW checkpoint is loaded. *)
Theorem mainnet_max_checkpoint_floor :
  ∃ M, the_class (fst import_module) "AIPGMainnet" = Ok M
    ∧ (∀ n, py_len (DGW_CHECKPOINTS M) = Ok n →
            max_checkpoint M = Ok (338687 + 2016 * n))
    ∧ (unreadable "checkpoints_dgw.json" →
       DGW_CHECKPOINTS M = JList [] ∧ max_checkpoint M = Ok 338687).
Proof.
  destruct class_checkpoint_attributes as (M & _ & HM & _ & _ & Hdgw & Hstart & Hsp & _).
  exists M. split; [exact HM |]. split.
  - intros n Hlen. pose proof (py_len_nonneg _ _ Hlen) as Hn.
    unfold max_checkpoint. rewrite Hlen, Hstart, Hsp. cbn.
    rewrite py_max_Zmax. f_equal. lia.
  - intros Hbad. rewrite (read_json_unreadable _ _ Hbad) in Hdgw.
    split; [exact Hdgw |]. unfold max_checkpoint. by rewrite Hdgw, Hstart, Hsp.
Qed.

(** X8. On mainnet the legacy bound stays below the DGW start exactly when
    there are at most 168 legacy checkpoints, and with 168 of them the
    legacy era ends at the height just before the DGW start. *)
Theorem mainnet_legacy_era (n : Z) :
  ∃ M, the_class (fst import_module) "AIPGMainnet" = Ok M
    ∧ (py_len (CHECKPOINTS M) = Ok n →
       ∃ h, max_legacy_checkpoint M = Ok h
         ∧ (h < DGW_CHECKPOINTS_START M ↔ n ≤ 168)
         ∧ (n = 168 → h + 1 = DGW_CHECKPOINTS_START M)).
Proof.
  destruct class_checkpoint_attributes as (M & _ & HM & _ & _ & _ & Hstart & _).
  exists M. split; [exact HM |]. intros Hlen.
  pose proof (py_len_nonneg _ _ Hlen) as Hn.
  unfold max_legacy_checkpoint. rewrite Hlen, Hstart. cbn. rewrite py_max_Zmax.
  eexists. split; [reflexivity |]. split; lia.
Qed.

(** X9. On testnet the legacy bound is 0 whatever files are present, and
    the DGW bound is [max(0, 2016 * count - 1)], 0 with a missing or
    unparsable DGW file. *)
Theorem testnet_checkpoint_bounds :
  ∃ T, the_class (fst import_module) "AIPGTestnet" = Ok T
    ∧ max_legacy_checkpoint T = Ok 0
    ∧ (∀ n, py_len (DGW_CHECKPOINTS T) = Ok n →
            max_checkpoint T = Ok (Z.max 0 (2016 * n - 1)))
    ∧ (unreadable "checkpoints_dgw_testnet.json" → max_checkpoint T = Ok 0).
Proof.
  destruct class_checkpoint_attributes
    as (_ & T & _ & HT & _ & _ & _ & _ & Hlegacy & Hdgw & Hstart & Hsp).
  exists T. split; [exact HT |]. split; [| split].
  - unfold max_legacy_checkpoint. by rewrite Hlegacy.
  - intros n Hlen. unfold max_checkpoint. rewrite Hlen, Hstart, Hsp. cbn.
    rewrite py_max_Zmax. f_equal. lia.
  - intros Hbad. rewrite (read_json_unreadable _ _ Hbad) in Hdgw.
    unfold max_checkpoint. by rewrite Hdgw, Hstart, Hsp.
Qed.

End checkpoint_tables.

Lemma parsed_resource_not_validated_witness :
  ∃ P, the_class (fst (@import_module null_host)) "AIPGMainnet" = Ok P
    ∧ CHECKPOINTS P = JNull
    ∧ ∃ msg, max_legacy_checkpoint P = Raise (TypeError msg).
Proof.
  exact (@parsed_resource_not_validated null_host "null" JNull eq_refl eq_refl).
Defined.

Lemma mainnet_max_checkpoint_floor_witness :
  ∃ M, the_class (fst (@import_module bare_host)) "AIPGMainnet" = Ok M
    ∧ DGW_CHECKPOINTS M = JList [] ∧ max_checkpoint M = Ok 338687.
Proof.
  destruct (@mainnet_max_checkpoint_floor bare_host) as (M & HM & Hcount & Hmissing).
  exists M. split; [exact HM |]. exact (Hmissing I).
Defined.

Lemma mainnet_legacy_era_witness :
  ∃ M h, the_class (fst (@import_module stocked_host)) "AIPGMainnet" = Ok M
    ∧ max_legacy_checkpoint M = Ok h ∧ h + 1 = DGW_CHECKPOINTS_START M.
Proof.
  destruct (@mainnet_legacy_era stocked_host 168) as (M & HM & Hera).
  assert (Hlen : py_len (CHECKPOINTS M) = Ok 168).
  { vm_compute in HM. injection HM as <-. reflexivity. }
  destruct (Hera Hlen) as (h & Hh & _ & Hend).
  exists M, h. split; [exact HM |]. split; [exact Hh | exact (Hend eq_refl)].
Defined.

Lemma testnet_checkpoint_bounds_witness :
  ∃ T, the_class (fst (@import_module stocked_host)) "AIPGTestnet" = Ok T
    ∧ max_legacy_checkpoint T = Ok 0 ∧ max_checkpoint T = Ok 0.
Proof.
  destruct (@testnet_checkpoint_bounds stocked_host) as (T & HT & Hlegacy & _ & Hmissing).
  exists T. split; [exact HT |]. split; [exact Hlegacy | exact (Hmissing I)].
Defined.

(** ** Building and reading the burn tuples *)

Lemma known_keywords_elem {A} (fields : list string) (kw : kwargs A) (k : string) (v : A) :
  known_keywords fields kw = true → (k, v) ∈ kw → k ∈ fields.
Proof.
  unfold known_keywords. rewrite forallb_forall. intros Hall Hin.
  apply list_elem_of_In in Hin. apply Hall in Hin. cbn in Hin.
  by apply bool_decide_eq_true in Hin.
Qed.

(** X10. A [BurnAmounts] tuple built from distinct keyword arguments gives
    each argument back under its name, and each of its nine fields holds
    the argument written with the name of the field. *)
Theorem BurnAmounts_new_getattr (kw : kwargs pynum) (t : BurnAmounts) :
  NoDup (dict_keys kw) → BurnAmounts_new kw = Ok t →
  (∀ k v, (k, v) ∈ kw → BurnAmounts_getattr t k = Ok v)
  ∧ (∀ f, f ∈ BurnAmounts_fields → ∃ v, (f, v) ∈ kw ∧ BurnAmounts_getattr t f = Ok v).
Proof.
  intros Hnd Hnew. unfold BurnAmounts_new in Hnew.
  destruct (known_keywords BurnAmounts_fields kw) eqn:Hknown; [| discriminate].
  unfold kwarg in Hnew.
  repeat match type of Hnew with
         | context [dict_get kw ?f] =>
             let E := fresh "E" in
             destruct (dict_get kw f) eqn:E; [cbn in Hnew | discriminate]
         end.
  injection Hnew as <-. split.
  - intros k v Hin.
    pose proof (known_keywords_elem _ _ _ _ Hknown Hin) as Hk.
    pose proof (dict_get_of_elem kw k v Hnd Hin) as Hget.
    unfold BurnAmounts_fields in Hk.
    repeat (apply elem_of_cons in Hk as [-> | Hk]; [vm_compute; congruence |]).
    by apply elem_of_nil in Hk.
  - intros f Hf. unfold BurnAmounts_fields in Hf.
    repeat (apply elem_of_cons in Hf as [-> | Hf];
            [eexists; split; [apply dict_get_elem_of; eassumption
                             | vm_compute; reflexivity] |]).
    by apply elem_of_nil in Hf.
Qed.

(** X11. A [BurnAddresses] tuple built from distinct keyword arguments gives
    each argument back under its name, and each of its ten fields holds
    the argument written with the name of the field. *)
Theorem BurnAddresses_new_getattr (kw : kwargs string) (t : BurnAddresses) :
  NoDup (dict_keys kw) → BurnAddresses_new kw = Ok t →
  (∀ k v, (k, v) ∈ kw → BurnAddresses_getattr t k = Ok v)
  ∧ (∀ f, f ∈ BurnAddresses_fields → ∃ v, (f, v) ∈ kw ∧ BurnAddresses_getattr t f = Ok v).
Proof.
  intros Hnd Hnew. unfold BurnAddresses_new in Hnew.
  destruct (known_keywords BurnAddresses_fields kw) eqn:Hknown; [| discriminate].
  unfold kwarg in Hnew.
  repeat match type of Hnew with
         | context [dict_get kw ?f] =>
             let E := fresh "E" in
             destruct (dict_get kw f) eqn:E; [cbn in Hnew | discriminate]
         end.
  injection Hnew as <-. split.
  - intros k v Hin.
    pose proof (known_keywords_elem _ _ _ _ Hknown Hin) as Hk.
    pose proof (dict_get_of_elem kw k v Hnd Hin) as Hget.
    unfold BurnAddresses_fields in Hk.
    repeat (apply elem_of_cons in Hk as [-> | Hk]; [vm_compute; congruence |]).
    by apply elem_of_nil in Hk.
  - intros f Hf. unfold BurnAddresses_fields in Hf.
    repeat (apply elem_of_cons in Hf as [-> | Hf];
            [eexists; split; [apply dict_get_elem_of; eassumption
                             | vm_compute; reflexivity] |]).
    by apply elem_of_nil in Hf.
Qed.

Lemma BurnAmounts_new_getattr_witness :
  let kw := map (fun f => (f, PyInt (Z.of_nat (String.length f)))) BurnAmounts_fields in
  ∃ t, BurnAmounts_new kw = Ok t
     ∧ BurnAmounts_getattr t "ReissueAssetBurnAmount" = Ok (PyInt 22)
     ∧ ∃ v, ("AddNullQualifierTagBurnAmount", v) ∈ kw
          ∧ BurnAmounts_getattr t "AddNullQualifierTagBurnAmount" = Ok v.
Proof.
  intros kw. eexists. split; [vm_compute; reflexivity |].
  assert (Hnd : NoDup (dict_keys kw)) by (refine (bool_decide_unpack _ _); vm_compute; exact I).
  destruct (BurnAmounts_new_getattr kw _ Hnd eq_refl) as [Hback Hfield].
  split.
  - apply Hback. apply list_elem_of_In. vm_compute. tauto.
  - apply Hfield. apply list_elem_of_In. vm_compute. tauto.
Defined.

Lemma BurnAddresses_new_getattr_witness :
  let kw := map (fun f => (f, f)) BurnAddresses_fields in
  ∃ t, BurnAddresses_new kw = Ok t
     ∧ BurnAddresses_getattr t "GlobalBurnAddress" = Ok "GlobalBurnAddress"
     ∧ ∃ v, ("IssueAssetBurnAddress", v) ∈ kw
          ∧ BurnAddresses_getattr t "IssueAssetBurnAddress" = Ok v.
Proof.
  intros kw. eexists. split; [vm_compute; reflexivity |].
  assert (Hnd : NoDup (dict_keys kw)) by (refine (bool_decide_unpack _ _); vm_compute; exact I).
  destruct (BurnAddresses_new_getattr kw _ Hnd eq_refl) as [Hback Hfield].
  split.
  - apply Hback. apply list_elem_of_In. vm_compute. tauto.
  - apply Hfield. apply list_elem_of_In. vm_compute. tauto.
Defined.

(** ** The constants of the two classes *)

Section constants.
Context `{Host}.

(** X12. The twenty version integers of [XPRV_HEADERS] and [XPUB_HEADERS]
    of the two classes are pairwise distinct and fit in 32 bits: a version
    determines the network, the key kind and the scheme. *)
Theorem version_integers_distinct :
  ∃ M T, the_class (fst import_module) "AIPGMainnet" = Ok M
    ∧ the_class (fst import_module) "AIPGTestnet" = Ok T
    ∧ length (version_integers M T) = 20%nat
    ∧ NoDup (version_integers M T)
    ∧ Forall (fun v => 0 ≤ v < 2 ^ 32) (version_integers M T).
Proof.
  eexists _, _. split; [vm_compute; reflexivity |].
  split; [vm_compute; reflexivity |]. split; [reflexivity |].
  split; refine (bool_decide_unpack _ _); vm_compute; exact I.
Qed.

(** X13. The twenty burn addresses of the two classes are pairwise
    distinct and have 34 characters each. *)
Theorem burn_addresses_distinct :
  ∃ M T, the_class (fst import_module) "AIPGMainnet" = Ok M
    ∧ the_class (fst import_module) "AIPGTestnet" = Ok T
    ∧ NoDup (burn_address_list (BURN_ADDRESSES M)
             ++ burn_address_list (BURN_ADDRESSES T))%list
    ∧ Forall (fun a => String.length a = 34%nat)
        (burn_address_list (BURN_ADDRESSES M)
         ++ burn_address_list (BURN_ADDRESSES T))%list.
Proof.
  eexists _, _. split; [vm_compute; reflexivity |].
  split; [vm_compute; reflexivity |].
  split; refine (bool_decide_unpack _ _); vm_compute; exact I.
Qed.

End constants.

(** X18. The bundled files reach three attributes only: between two hosts
    the mainnet class differs at most in [DEFAULT_SERVERS], [CHECKPOINTS]
    and [DGW_CHECKPOINTS], and the testnet class at most in
    [DEFAULT_SERVERS] and [DGW_CHECKPOINTS]. *)
Theorem resources_reach_tables_only (H1 H2 : Host) :
  ∃ M1 M2 T1 T2,
    the_class (fst (@import_module H1)) "AIPGMainnet" = Ok M1
    ∧ the_class (fst (@import_module H2)) "AIPGMainnet" = Ok M2
    ∧ the_class (fst (@import_module H1)) "AIPGTestnet" = Ok T1
    ∧ the_class (fst (@import_module H2)) "AIPGTestnet" = Ok T2
    ∧ M1 = with_tables M2 (DEFAULT_SERVERS M1) (CHECKPOINTS M1) (DGW_CHECKPOINTS M1)
    ∧ T1 = with_tables T2 (DEFAULT_SERVERS T1) (CHECKPOINTS T2) (DGW_CHECKPOINTS T1).
Proof.
  eexists _, _, _, _.
  do 4 (split; [vm_compute; reflexivity |]). split; reflexivity.
Qed.

(** ** Switching the network, where the names resolve *)

(** X14. In a namespace that binds [RavencoinMainnet] and
    [RavencoinTestnet] to classes, each switch function rebinds [net] and
    nothing else; switching twice to the same network is switching once,
    the last switch decides, and every attribute read through [net] after
    a switch is that of the class switched to. *)
Theorem switch_rebinds_net_only (g : globals) (M T : Net) :
  g !! "RavencoinMainnet" = Some (ObjNet M) →
  g !! "RavencoinTestnet" = Some (ObjNet T) →
  set_mainnet g = Ok (<["net" := ObjNet M]> g)
  ∧ set_testnet g = Ok (<["net" := ObjNet T]> g)
  ∧ (∀ g' x, set_mainnet g = Ok g' ∨ set_testnet g = Ok g' → x ≠ "net" →
             g' !! x = g !! x)
  ∧ (g1 ← set_mainnet g; set_mainnet g1) = set_mainnet g
  ∧ (g1 ← set_testnet g; set_mainnet g1) = set_mainnet g
  ∧ (g1 ← set_mainnet g; set_testnet g1) = set_testnet g
  ∧ (∀ A (attr : Net → A) name,
       (g1 ← set_mainnet g; net_attr g1 attr name) = Ok (attr M)
       ∧ (g1 ← set_testnet g; net_attr g1 attr name) = Ok (attr T)).
Proof.
  intros HM HT.
  assert (Hm : set_mainnet g = Ok (<["net" := ObjNet M]> g)).
  { unfold set_mainnet, load_name. by rewrite HM. }
  assert (Ht : set_testnet g = Ok (<["net" := ObjNet T]> g)).
  { unfold set_testnet, load_name. by rewrite HT. }
  assert (Hm' : ∀ v, set_mainnet (<["net" := v]> g) = Ok (<["net" := ObjNet M]> g)).
  { intros v. unfold set_mainnet, load_name.
    rewrite lookup_insert_ne by discriminate. rewrite HM. cbn.
    by rewrite insert_insert_eq. }
  assert (Ht' : ∀ v, set_testnet (<["net" := v]> g) = Ok (<["net" := ObjNet T]> g)).
  { intros v. unfold set_testnet, load_name.
    rewrite lookup_insert_ne by discriminate. rewrite HT. cbn.
    by rewrite insert_insert_eq. }
  split; [exact Hm |]. split; [exact Ht |]. split.
  { intros g' x Hg' Hx. rewrite Hm, Ht in Hg'.
    destruct Hg' as [[= <-] | [= <-]]; by rewrite lookup_insert_ne. }
  rewrite Hm, Ht. cbn. rewrite !Hm', Ht'.
  split; [reflexivity |]. split; [reflexivity |]. split; [reflexivity |].
  intros A attr name. unfold net_attr, load_name.
  rewrite !lookup_insert_eq. split; reflexivity.
Qed.

Lemma switch_rebinds_net_only_witness :
  let g : globals :=
    <["RavencoinTestnet" := ObjNet bare_testnet]>
      (<["RavencoinMainnet" := ObjNet bare_mainnet]> ∅) in
  (g1 ← set_testnet g; net_attr g1 WIF_PREFIX "WIF_PREFIX") = Ok 239
  ∧ (g1 ← set_mainnet g; net_attr g1 WIF_PREFIX "WIF_PREFIX") = Ok 128.
Proof.
  intros g.
  destruct (switch_rebinds_net_only g bare_mainnet bare_testnet eq_refl eq_refl)
    as (_ & _ & _ & _ & _ & _ & Hread).
  destruct (Hread Z WIF_PREFIX "WIF_PREFIX") as [Hm Ht].
  split; [exact Ht | exact Hm].
Defined.


(** ** The import in the namespace of a module *)

Section import_from.
Context `{Host}.










End import_from.


(** ** The subclasses of a class *)

Section all_subclasses_facts.
Context {C : Type} `{Countable C}.
Context (direct : C → list C).

Lemma descends_inv (cls x : C) :
  descends direct cls x ↔
  x ∈ direct cls ∨ ∃ sub, sub ∈ direct cls ∧ descends direct sub x.
Proof.
  split.
  - intros Hd. destruct Hd as [cls sub Hsub | cls sub x Hsub Hd]; [by left |].
    right. by exists sub.
  - intros [Hx | (sub & Hsub & Hd)].
    + by apply descends_direct.
    + by eapply descends_step.
Qed.

(** The loop over the copy of the set: the results of the recursive calls
    are added to what has been collected. *)
Lemma all_subclasses_loop (rec : C → option (gset C)) (subs : list C) (acc : gset C) :
  (∀ sub, sub ∈ subs →
     ∃ S, rec sub = Some S ∧ ∀ x, x ∈ S ↔ descends direct sub x) →
  ∃ R, fold_left (fun acc sub => r ← acc; s ← rec sub; Some (r ∪ s)) subs (Some acc)
       = Some R
     ∧ ∀ x, x ∈ R ↔ x ∈ acc ∨ ∃ sub, sub ∈ subs ∧ descends direct sub x.
Proof.
  revert acc. induction subs as [| sub subs IH]; intros acc Hrec.
  - exists acc. split; [reflexivity |]. intros x. split; [by left |].
    intros [Hx | (sub & Hsub & _)]; [done | by apply elem_of_nil in Hsub].
  - destruct (Hrec sub) as (S0 & HS0 & Hspec0); [by left |].
    cbn [fold_left]. cbn [mbind option_bind]. rewrite HS0. cbn [mbind option_bind].
    destruct (IH (acc ∪ S0)) as (R & HR & HspecR).
    { intros sub' Hsub'. apply Hrec. by right. }
    exists R. split; [exact HR |]. intros x. rewrite HspecR, elem_of_union, Hspec0.
    split.
    + intros [[Hx | Hd] | (sub' & Hsub' & Hd)].
      * by left.
      * right. exists sub. split; [by left | done].
      * right. exists sub'. split; [by right | done].
    + intros [Hx | (sub' & Hsub' & Hd)]; [by left; left |].
      apply elem_of_cons in Hsub' as [-> | Hsub'].
      * left. by right.
      * right. by exists sub'.
Qed.

(** X16. In a hierarchy where every class has a rank above the ranks of
    its direct subclasses, [all_subclasses] returns within a recursion
    depth of one more than the rank of the class, and its result is the
    set of the classes that derive from the class in one or more steps. *)
Theorem all_subclasses_transitive (rank : C → nat) (depth : nat) (cls : C) :
  (∀ c sub, sub ∈ direct c → (rank sub < rank c)%nat) →
  (rank cls < depth)%nat →
  ∃ S, all_subclasses_in direct depth cls = Some S
     ∧ ∀ x, x ∈ S ↔ descends direct cls x.
Proof.
  intros Hrank. revert cls. induction depth as [| depth IH]; intros cls Hdepth; [lia |].
  cbn [all_subclasses_in]. cbv zeta.
  destruct (all_subclasses_loop (all_subclasses_in direct depth)
              (elements (list_to_set (direct cls) : gset C))
              (list_to_set (direct cls))) as (R & HR & Hspec).
  { intros sub Hsub. apply IH.
    apply elem_of_elements, elem_of_list_to_set in Hsub.
    specialize (Hrank _ _ Hsub). lia. }
  exists R. split; [exact HR |]. intros x.
  rewrite Hspec, descends_inv, elem_of_list_to_set.
  split; (intros [Hx | (sub & Hsub & Hd)]; [by left |]); right; exists sub;
    (split; [| done]).
  - by apply elem_of_elements, elem_of_list_to_set in Hsub.
  - by apply elem_of_elements, elem_of_list_to_set.
Qed.

End all_subclasses_facts.

Lemma all_subclasses_transitive_witness :
  ∃ S, all_subclasses_in module_direct_subclasses 2 "AbstractNet" = Some S
     ∧ (∀ x, x ∈ S ↔ descends module_direct_subclasses "AbstractNet" x)
     ∧ S = {[ "AIPGMainnet"; "AIPGTestnet" ]}.
Proof.
  destruct (all_subclasses_transitive module_direct_subclasses
              (fun c => if decide (c = "AbstractNet") then 1%nat else 0%nat)
              2 "AbstractNet") as (S & HS & Hspec).
  - intros c sub. unfold module_direct_subclasses.
    destruct (decide (c = "AbstractNet")) as [-> | _].
    + intros [-> | [-> | Hsub%elem_of_nil]%elem_of_cons]%elem_of_cons;
        [rewrite decide_False by discriminate; lia
        | rewrite decide_False by discriminate; lia | done].
    + by intros Hsub%elem_of_nil.
  - rewrite decide_True by reflexivity. lia.
  - exists S. split; [exact HS |]. split; [exact Hspec |].
    assert (Hval : all_subclasses_in module_direct_subclasses 2 "AbstractNet"
                   = Some {[ "AIPGMainnet"; "AIPGTestnet" ]})
      by (vm_compute; reflexivity).
    rewrite Hval in HS. by injection HS.
Defined.

(** ** The order of keyword arguments *)

Section dict_get_order.
Context {K V : Type} `{EqDecision K}.

Lemma dict_get_None (d : pydict K V) (k : K) :
  dict_get d k = None ↔ k ∉ dict_keys d.
Proof.
  unfold dict_keys. induction d as [| [k0 v0] d IH]; cbn [dict_get map fst].
  - split; [intros _; apply not_elem_of_nil | done].
  - rewrite not_elem_of_cons. destruct (decide (k0 = k)) as [-> | Hne].
    + split; [discriminate | intros [Hk _]; done].
    + rewrite IH. split; [intros Hk; split; [congruence | done] | by intros [_ Hk]].
Qed.

Lemma dict_get_Permutation (d d' : pydict K V) (k : K) :
  NoDup (dict_keys d) → d ≡ₚ d' → dict_get d k = dict_get d' k.
Proof.
  intros Hnd Hperm.
  assert (Hnd' : NoDup (dict_keys d')).
  { unfold dict_keys in *. by rewrite <- Hperm. }
  destruct (dict_get d k) as [v |] eqn:Hget.
  - symmetry. apply dict_get_of_elem; [exact Hnd' |].
    rewrite <- Hperm. by apply dict_get_elem_of.
  - symmetry. apply dict_get_None. apply dict_get_None in Hget.
    unfold dict_keys in *. by rewrite <- Hperm.
Qed.

End dict_get_order.

Lemma known_keywords_Permutation {A} (fields : list string) (kw kw' : kwargs A) :
  kw ≡ₚ kw' → known_keywords fields kw = known_keywords fields kw'.
Proof.
  intros Hperm. unfold known_keywords.
  apply eq_true_iff_eq. rewrite !forallb_forall.
  split; intros Hall x Hx; apply Hall; apply list_elem_of_In;
    apply list_elem_of_In in Hx; [by rewrite Hperm | by rewrite <- Hperm].
Qed.

(** X19. The burn tuples do not depend on the order in which their
    keyword arguments are written: of two calls whose distinct keywords
    are a permutation of each other, both raise or both build the same
    tuple. *)
Theorem burn_tuples_keyword_order
    (amounts amounts' : kwargs pynum) (addresses addresses' : kwargs string) :
  NoDup (dict_keys amounts) → amounts ≡ₚ amounts' →
  NoDup (dict_keys addresses) → addresses ≡ₚ addresses' →
  raises (BurnAmounts_new amounts) = raises (BurnAmounts_new amounts')
  ∧ (∀ t, BurnAmounts_new amounts = Ok t → BurnAmounts_new amounts' = Ok t)
  ∧ raises (BurnAddresses_new addresses) = raises (BurnAddresses_new addresses')
  ∧ (∀ t, BurnAddresses_new addresses = Ok t → BurnAddresses_new addresses' = Ok t).
Proof.
  intros Hnd1 Hp1 Hnd2 Hp2.
  assert (Ha : BurnAmounts_new amounts = BurnAmounts_new amounts').
  { unfold BurnAmounts_new, kwarg.
    rewrite (known_keywords_Permutation _ _ _ Hp1).
    by rewrite !(fun k => dict_get_Permutation amounts amounts' k Hnd1 Hp1). }
  assert (Hb : BurnAddresses_new addresses = BurnAddresses_new addresses').
  { unfold BurnAddresses_new, kwarg.
    rewrite (known_keywords_Permutation _ _ _ Hp2).
    by rewrite !(fun k => dict_get_Permutation addresses addresses' k Hnd2 Hp2). }
  rewrite Ha, Hb. repeat split; intros t Ht; exact Ht.
Qed.

Lemma burn_tuples_keyword_order_witness :
  let amounts := map (fun f => (f, PyInt 1)) BurnAmounts_fields in
  let addresses := map (fun f => (f, f)) BurnAddresses_fields in
  raises (BurnAmounts_new (rev amounts)) = false
  ∧ BurnAmounts_new (rev amounts) = BurnAmounts_new amounts
  ∧ raises (BurnAddresses_new (rev addresses)) = false.
Proof.
  intros amounts addresses.
  assert (Hnd1 : NoDup (dict_keys amounts))
    by (refine (bool_decide_unpack _ _); vm_compute; exact I).
  assert (Hnd2 : NoDup (dict_keys addresses))
    by (refine (bool_decide_unpack _ _); vm_compute; exact I).
  destruct (burn_tuples_keyword_order amounts (rev amounts) addresses (rev addresses)
              Hnd1 (Permutation_rev _) Hnd2 (Permutation_rev _))
    as (Hra & Ha & Hrb & _).
  split; [by rewrite <- Hra |]. split; [| by rewrite <- Hrb].
  destruct (BurnAmounts_new amounts) as [t |] eqn:Ht; [| discriminate Hra].
  by apply Ha.
Defined.
